(** * charts-panel: portfolio metrics, weight normalisation and the
      local-search optimizer

    A shallow embedding of [js/portfolio-metrics.js] (frequency detector,
    metrics engine, return aggregator, weight normalizer, random search), of
    the [PortfolioOptimizer] class ([js/portfolio-optimization.js]) and of
    the embedded functions kept as a backup, with the properties of the
    written specification stated over them (Part II) and further properties
    of the code (Part III).

    ** Number model

    JavaScript numbers are IEEE-754 binary64 values.

    - The frequency detector and the metrics engine are embedded over the
      primitive binary64 floats ([PrimFloat]): the properties about them are
      about [NaN], division by zero and comparisons against [NaN], and those
      behave here exactly as in the engine.
    - The return aggregator, both weight normalizers and the optimizer are
      embedded over exact rationals ([Q]).  They add, multiply, divide,
      compare and round to one decimal ([toFixed(1)]); the properties about
      them are arithmetic.  Binary rounding error is outside this part of the
      model; every concrete input used below is evaluated the same way by
      binary64 arithmetic up to an error far below the tolerances involved.
    - The random search hands the series of the aggregator to the metrics
      engine: it is embedded over the floats, together with the aggregator
      and the normalizer as it calls them ([RandomSearch]).

    ** Objects

    A JavaScript object used as a map is an association list in own-property
    enumeration order (insertion order for asset names): the code depends on
    that order (first other asset holding a step, first largest weight,
    stable ranking of gradients). *)

From Stdlib Require Import List ZArith QArith Qround Qabs Bool String Lia Lqa.
From Stdlib Require Import Floats Uint63.
Import ListNotations.

Set Implicit Arguments.
Set Warnings "-inexact-float".

(* ================================================================== *)
(** * Part I: definitions                                              *)
(* ================================================================== *)

(** ** Frequency detector and metrics engine (binary64) *)

Module MetricsEngine.

Local Open Scope float_scope.

(** [array.length] as a number. *)
Definition length_num {A} (l : list A) : float :=
  of_uint63 (Uint63.of_Z (Z.of_nat (List.length l))).

Definition Math_sqrt : float -> float := PrimFloat.sqrt.
Definition Math_abs : float -> float := PrimFloat.abs.

(** [Math.floor] on the integer part of a finite binary64 value, through its
    mantissa and exponent. *)
Definition floorZ (x : float) : Z :=
  match Prim2SF x with
  | S754_finite s m e =>
      let v := if (0 <=? e)%Z then (Zpos m * 2 ^ e)%Z
               else (Zpos m / 2 ^ (- e))%Z in
      let exact := if (0 <=? e)%Z then true
                   else ((Zpos m mod 2 ^ (- e)) =? 0)%Z in
      if s then (if exact then - v else - v - 1)%Z else v
  | _ => 0%Z
  end.

Definition Math_floor (x : float) : float :=
  match Prim2SF x with
  | S754_finite s m e =>
      if (0 <=? e)%Z then x
      else let n := floorZ x in
           if (n <? 0)%Z then - of_uint63 (Uint63.of_Z (- n))
           else of_uint63 (Uint63.of_Z n)
  | _ => x
  end.

Record FrequencyInfo := mkFrequency {
  periods : float;
  name : string;
  factor : float
}.

Section Engine.

(** [new Date(label)] followed by the numeric conversion of the subtraction:
    the time value in milliseconds, [NaN] for a label that does not parse
    (an Invalid Date).  The constructor does not throw on a string. *)
Variable Date_parse : string -> float.

(** [Math.pow]. *)
Variable Math_pow : float -> float -> float.

(** [detectFrequency] (js/portfolio-metrics.js, lines 13-40).  [dates] is
    [None] for [null]; the date branch is taken for an array of two labels
    or more.  Nothing in the [try] block throws on string labels,
    so its [catch] has no counterpart here. *)
Definition detectFrequency (returns : list float) (dates : option (list string))
  : FrequencyInfo :=
  let dataLength := length_num returns in
  let heuristic :=
    if 1000 <? dataLength then mkFrequency 252 "daily" (Math_sqrt 252)
    else if 200 <? dataLength then mkFrequency 52 "weekly" (Math_sqrt 52)
    else if 50 <? dataLength then mkFrequency 12 "monthly" (Math_sqrt 12)
    else if 10 <? dataLength then mkFrequency 4 "quarterly" (Math_sqrt 4)
    else mkFrequency 1 "annual" 1 in
  match dates with
  | Some (d0 :: d1 :: _) =>
      let date1 := Date_parse d0 in
      let date2 := Date_parse d1 in
      let daysDiff := Math_abs ((date2 - date1) / (1000 * 60 * 60 * 24)) in
      if daysDiff <=? 1.5 then mkFrequency 252 "daily" (Math_sqrt 252)
      else if daysDiff <=? 8 then mkFrequency 52 "weekly" (Math_sqrt 52)
      else if daysDiff <=? 35 then mkFrequency 12 "monthly" (Math_sqrt 12)
      else if daysDiff <=? 100 then mkFrequency 4 "quarterly" (Math_sqrt 4)
      else mkFrequency 1 "annual" 1
  | _ => heuristic
  end.

Record MetricsResult := mkMetrics {
  cagr : float;
  volatility : float;
  sharpe : float;
  sortino : float;
  cvar : float;
  maxDrawdown : float;
  frequency : option string;
  periodsPerYear : option float
}.

(** [[...xs].sort((a, b) => a - b)]: the sort is stable, an element moves
    behind another only when the comparator is positive. *)
Fixpoint insert_asc (x : float) (l : list float) : list float :=
  match l with
  | [] => [x]
  | y :: l' => if 0 <? x - y then y :: insert_asc x l' else x :: l
  end.

Definition sort_asc (l : list float) : list float :=
  fold_right insert_asc [] l.

(** The [forEach] of the drawdown simulation: the state is
    [(peak, maxDrawdown, cumulative)]. *)
Definition drawdown_step (st : float * float * float) (ret : float)
  : float * float * float :=
  let '(peak, maxDrawdown, cumulative) := st in
  let cumulative := cumulative * (1 + ret) in
  let peak := if peak <? cumulative then cumulative else peak in
  let drawdown := (peak - cumulative) / peak in
  let maxDrawdown := if maxDrawdown <? drawdown then drawdown else maxDrawdown in
  (peak, maxDrawdown, cumulative).

(** [calculateMetricsForReturns] (js/portfolio-metrics.js, lines 49-124);
    [riskFreeRate] is [None] when the argument is left out (default 0.02). *)
Definition calculateMetricsForReturns (returns : list float)
    (riskFreeRate : option float) (dates : option (list string))
  : MetricsResult :=
  let riskFreeRate := match riskFreeRate with Some r => r | None => 0.02 end in
  match returns with
  | [] => mkMetrics 0 0 0 0 0 0 None None
  | _ =>
    let frequency := detectFrequency returns dates in
    let periodsPerYear := periods frequency in
    let volatilityFactor := factor frequency in
    let monthlyReturns := map (fun r => r / 100) returns in
    let meanReturn :=
      fold_left (fun a b => a + b) monthlyReturns 0 / length_num monthlyReturns in
    let totalReturn :=
      fold_left (fun acc ret => acc * (1 + ret)) monthlyReturns 1 in
    let years := length_num returns / periodsPerYear in
    let cagr :=
      if 0 <? years then (Math_pow totalReturn (1 / years) - 1) * 100 else 0 in
    let variance :=
      fold_left (fun acc ret => acc + Math_pow (ret - meanReturn) 2)
                monthlyReturns 0 / (length_num monthlyReturns - 1) in
    let volatility := Math_sqrt variance * volatilityFactor * 100 in
    let periodicRiskFreeRate := riskFreeRate / periodsPerYear in
    let excessReturns := map (fun ret => ret - periodicRiskFreeRate) monthlyReturns in
    let meanExcessReturn :=
      fold_left (fun a b => a + b) excessReturns 0 / length_num excessReturns in
    let returnsStdDev := Math_sqrt variance in
    let sharpe :=
      if 0 <? returnsStdDev
      then (meanExcessReturn * periodsPerYear) / (returnsStdDev * volatilityFactor)
      else 0 in
    let downsideReturns :=
      filter (fun ret => ret <? periodicRiskFreeRate) monthlyReturns in
    let downsideDeviation :=
      match downsideReturns with
      | [] => 0
      | _ =>
        let downsideSquaredDeviations :=
          map (fun ret => Math_pow (ret - periodicRiskFreeRate) 2) downsideReturns in
        let downsideVariance :=
          fold_left (fun a b => a + b) downsideSquaredDeviations 0
          / length_num downsideReturns in
        Math_sqrt downsideVariance * volatilityFactor
      end in
    let sortino :=
      if 0 <? downsideDeviation
      then (meanExcessReturn * periodsPerYear) / downsideDeviation else 0 in
    let sortedReturns := sort_asc monthlyReturns in
    let cvarIndex := Math_floor (length_num sortedReturns * 0.05) in
    let cvar :=
      if 0 <? cvarIndex
      then fold_left (fun a b => a + b)
                     (firstn (Z.to_nat (floorZ cvarIndex)) sortedReturns) 0
           / cvarIndex * 100
      else 0 in
    let '(_, maxDrawdown, _) := fold_left drawdown_step monthlyReturns (1, 0, 1) in
    mkMetrics cagr volatility sharpe sortino cvar (maxDrawdown * 100)
              (Some (name frequency)) (Some periodsPerYear)
  end.

Record AdditionalMetrics := mkAdditional {
  skewness : float;
  kurtosis : float;
  var95 : float;
  var99 : float;
  beta : float;
  alpha : float;
  frequency' : option string;
  periodsPerYear' : option float
}.

(** [calculateAdditionalMetrics] (js/portfolio-metrics.js, lines 241-296). *)
Definition calculateAdditionalMetrics (returns : list float)
    (benchmarkReturns : option (list float)) (dates : option (list string))
  : AdditionalMetrics :=
  match returns with
  | [] => mkAdditional 0 0 0 0 0 0 None None
  | _ =>
    let frequency := detectFrequency returns dates in
    let periodsPerYear := periods frequency in
    let monthlyReturns := map (fun r => r / 100) returns in
    let meanReturn :=
      fold_left (fun a b => a + b) monthlyReturns 0 / length_num monthlyReturns in
    let n := length_num monthlyReturns in
    let cubed :=
      fold_left (fun acc ret => acc + Math_pow (ret - meanReturn) 3)
                monthlyReturns 0 / (n - 1) in
    let variance :=
      fold_left (fun acc ret => acc + Math_pow (ret - meanReturn) 2)
                monthlyReturns 0 / (n - 1) in
    let skewness := cubed / Math_pow variance (3 / 2) in
    let fourth :=
      fold_left (fun acc ret => acc + Math_pow (ret - meanReturn) 4)
                monthlyReturns 0 / (n - 1) in
    let kurtosis := (fourth / Math_pow variance 2) - 3 in
    let sortedReturns := sort_asc monthlyReturns in
    let var95Index := Math_floor (length_num sortedReturns * 0.05) in
    let var99Index := Math_floor (length_num sortedReturns * 0.01) in
    let var95 :=
      if 0 <? var95Index
      then nth (Z.to_nat (floorZ var95Index)) sortedReturns nan * 100 else 0 in
    let var99 :=
      if 0 <? var99Index
      then nth (Z.to_nat (floorZ var99Index)) sortedReturns nan * 100 else 0 in
    let '(beta, alpha) :=
      match benchmarkReturns with
      | Some benchmarkReturns =>
        if (List.length benchmarkReturns =? List.length returns)%nat then
          let benchmarkDecimal := map (fun r => r / 100) benchmarkReturns in
          let benchmarkMean :=
            fold_left (fun a b => a + b) benchmarkDecimal 0
            / length_num benchmarkDecimal in
          let covariance :=
            fold_left (fun acc '(ret, b) =>
                         acc + (ret - meanReturn) * (b - benchmarkMean))
                      (combine monthlyReturns benchmarkDecimal) 0 / (n - 1) in
          let benchmarkVariance :=
            fold_left (fun acc ret => acc + Math_pow (ret - benchmarkMean) 2)
                      benchmarkDecimal 0 / (n - 1) in
          let beta :=
            if 0 <? benchmarkVariance then covariance / benchmarkVariance else 0 in
          let alpha := (meanReturn - beta * benchmarkMean) * periodsPerYear * 100 in
          (beta, alpha)
        else (0, 0)
      | None => (0, 0)
      end in
    mkAdditional skewness kurtosis var95 var99 beta alpha
                 (Some (name frequency)) (Some periodsPerYear)
  end.

End Engine.

End MetricsEngine.


(** ** Values, objects and rounding (exact arithmetic) *)

Module JS.

Local Open Scope Q_scope.

(** What a weight map holds under an asset name. *)
Inductive jsval : Type :=
| VNum (x : Q)      (** a finite number *)
| VStr1 (t : Z)     (** the string [toFixed(1)] writes for [t/10] *)
| VUndef.           (** [undefined], [null] or [NaN] *)

(** The number a one-decimal string denotes. *)
Definition parseFixed (t : Z) : Q := inject_Z t / 10.

(** [parseFloat(v) || 0] and [parseFloat(v || 0)]: the two agree on the
    values above; a non-empty string is truthy and parses to its number. *)
Definition parseFloat_or0 (v : jsval) : Q :=
  match v with
  | VNum x => x
  | VStr1 t => parseFixed t
  | VUndef => 0
  end.

(** [x.toFixed(1)], as the number of tenths: the integer [n] with [n/10]
    closest to [|x|], the larger one on a tie, with the sign of [x]. *)
Definition toFixed1 (x : Q) : Z :=
  if Qle_bool 0 x then Qfloor (x * 10 + (1 # 2))
  else (- Qfloor (- x * 10 + (1 # 2)))%Z.

(** [parseFloat(x.toFixed(1))]. *)
Definition round1 (x : Q) : Q := parseFixed (toFixed1 x).

Definition Qltb (x y : Q) : bool := negb (Qle_bool y x).

(** A non-empty string is truthy. *)
Definition truthy_string (s : string) : bool := negb (String.eqb s EmptyString).

Section Objects.
Variable A : Type.

(** [obj[key]]; [None] is [undefined]. *)
Fixpoint lookup (key : string) (obj : list (string * A)) : option A :=
  match obj with
  | [] => None
  | (k, v) :: rest => if String.eqb k key then Some v else lookup key rest
  end.

(** [obj[key] = f(obj[key])] for a key the object has: the key keeps its
    place. *)
Fixpoint update (key : string) (f : A -> A) (obj : list (string * A))
  : list (string * A) :=
  match obj with
  | [] => []
  | (k, v) :: rest =>
      if String.eqb k key then (k, f v) :: rest
      else (k, v) :: update key f rest
  end.

Definition keys (obj : list (string * A)) : list string := map fst obj.
Definition values (obj : list (string * A)) : list A := map snd obj.

End Objects.

End JS.

(** ** Return aggregator and weight normalizer of [portfolio-metrics.js]
       (exact arithmetic) *)

Module PortfolioMetrics.

Import JS.
Local Open Scope Q_scope.

(** The loop of [calculateCumulativeReturns] at index [i]: the state is
    [(cumulative, result)]. *)
Definition cumulative_step (returns : list Q) (st : Q * list Q) (i : nat)
  : Q * list Q :=
  let '(cumulative, result) := st in
  if (i =? 0)%nat then (cumulative, result ++ [0])
  else
    let cumulative :=
      (1 + cumulative / 100) * (1 + nth (i - 1) returns 0 / 100) * 100 - 100 in
    (cumulative, result ++ [cumulative]).

(** [calculateCumulativeReturns] (js/portfolio-metrics.js, lines 131-149). *)
Definition calculateCumulativeReturns (returns : list Q) : list Q :=
  match returns with
  | [] => []
  | _ => snd (fold_left (cumulative_step returns)
                        (seq 0 (List.length returns)) (0, []))
  end.

(** [assetReturns[asset][index]]: [None] when the index is outside the array
    or the entry is [null] or [undefined]. *)
Definition entry (series : list (option Q)) (index : nat) : option Q :=
  match nth_error series index with
  | Some v => v
  | None => None
  end.

(** [parseFloat(weights[asset] || 0)]. *)
Definition weight_of (weights : list (string * jsval)) (asset : string) : Q :=
  match lookup asset weights with
  | Some v => parseFloat_or0 v
  | None => 0
  end.

(** [calculatePortfolioReturns] (js/portfolio-metrics.js, lines 158-188). *)
Definition calculatePortfolioReturns (weights : list (string * jsval))
    (assetReturns : list (string * list (option Q))) (indices : list nat)
  : list Q :=
  let totalWeight :=
    fold_left (fun sum weight => sum + parseFloat_or0 weight) (values weights) 0 in
  if Qeq_bool totalWeight 0 then map (fun _ => 0) indices
  else
    let activeAssets :=
      filter (fun asset =>
                let weight := weight_of weights asset in
                Qltb 0 weight &&
                match lookup asset assetReturns with Some _ => true | None => false end)
             (keys weights) in
    match activeAssets with
    | [] => map (fun _ => 0) indices
    | _ =>
      map (fun index =>
             fold_left
               (fun portfolioReturn asset =>
                  let weight := weight_of weights asset in
                  match lookup asset assetReturns with
                  | Some series =>
                      match entry series index with
                      | Some assetReturn =>
                          portfolioReturn + (weight / 100) * assetReturn
                      | None => portfolioReturn
                      end
                  | None => portfolioReturn
                  end)
               activeAssets 0)
          indices
    end.

(** The search for the largest rounded weight: the state is
    [(largestAsset, largestWeight)], starting from [(null, -1)]. *)
Definition largest_step (st : option string * Q) (e : string * Z)
  : option string * Q :=
  let '(largestAsset, largestWeight) := st in
  let '(asset, t) := e in
  let weight := parseFixed t in
  if Qltb largestWeight weight then (Some asset, weight)
  else (largestAsset, largestWeight).

(** The standalone [normalizeWeights] (js/portfolio-metrics.js, lines
    195-232).  After the first [forEach] every value is the string
    [toFixed(1)] wrote; the adjusted weight is written back as a number. *)
Definition normalizeWeights (weights : list (string * jsval))
  : list (string * jsval) :=
  let sum :=
    fold_left (fun a b => a + parseFloat_or0 b) (values weights) 0 in
  if Qltb 0 sum then
    (* every value becomes a one-decimal string *)
    let rounded :=
      map (fun '(asset, v) => (asset, toFixed1 ((parseFloat_or0 v / sum) * 100)))
          weights in
    let normalizedWeights := map (fun '(asset, t) => (asset, VStr1 t)) rounded in
    let roundedSum :=
      fold_left (fun a t => a + parseFixed t) (values rounded) 0 in
    let difference := round1 (100 - roundedSum) in
    if Qltb 0 (Qabs difference) then
      let '(largestAsset, _) := fold_left largest_step rounded (None, - (1)) in
      match largestAsset with
      | Some largestAsset =>
          if truthy_string largestAsset then
            update largestAsset
                   (fun v => VNum (round1 (parseFloat_or0 v + difference)))
                   normalizedWeights
          else normalizedWeights
      | None => normalizedWeights
      end
    else normalizedWeights
  else weights.

End PortfolioMetrics.

(** ** The [PortfolioOptimizer] class (exact arithmetic) *)

Module PortfolioOptimizer.

Import JS.
Local Open Scope Q_scope.

(** [options.field || fallback]: [undefined], [NaN] and [0] give the
    fallback.  [None] stands for [undefined] or [NaN]. *)
Definition or_else (field : option Q) (fallback : Q) : Q :=
  match field with
  | Some x => if Qeq_bool x 0 then fallback else x
  | None => fallback
  end.

Record Options := mkOptions {
  options_stepSize : option Q;
  options_maxIterations : option Q;
  options_tolerance : option Q;
  options_maxStagnation : option Q
}.

Record Optimizer := mkOptimizer {
  stepSize : Q;
  maxIterations : Q;
  tolerance : Q;
  maxStagnation : Q
}.

(** The constructor of the class (js/portfolio-optimization.js, lines 7-12;
    the line numbers below are of that file). *)
Definition constructor (options : Options) : Optimizer :=
  mkOptimizer (or_else (options_stepSize options) (1 # 10))
              (or_else (options_maxIterations options) 100)
              (or_else (options_tolerance options) (1 # 1000000))
              (or_else (options_maxStagnation options) 10).

(** The weight map the optimizer works on: numbers under asset names. *)
Definition Weights := list (string * Q).

(** The metrics object the evaluation callback returns; a field is [None]
    when it is missing, [undefined] or [NaN]. *)
Record MetricsObject := mkMetricsObject {
  sharpe : option Q;
  volatility : option Q;
  sortino : option Q;
  cvar : option Q
}.

(** One call of the caller-supplied callback: it throws, or it returns a
    metrics object ([None]: a falsy value such as [undefined] or [null]). *)
Inductive Outcome : Type :=
| Throws (error : string)
| Returns (metrics : option MetricsObject).

Definition Callback := Weights -> Outcome.

(** [weights[asset]] for an asset of the map. *)
Definition get (weights : Weights) (asset : string) : Q :=
  match lookup asset weights with
  | Some w => w
  | None => 0
  end.

(** [calculateObjectiveFunction] (lines 185-209): the callback is called
    inside a [try] whose [catch] returns the penalty. *)
Definition calculateObjectiveFunction (weights : Weights) (objective : string)
    (calculateMetrics : Callback) : Q :=
  match calculateMetrics weights with
  | Returns (Some metrics) =>
      if String.eqb objective "sharpe" then or_else (sharpe metrics) (- (999))
      else if String.eqb objective "risk" then - (or_else (volatility metrics) 999)
      else if String.eqb objective "sortino" then or_else (sortino metrics) (- (999))
      else if String.eqb objective "cvar"
           then - (or_else (option_map Qabs (cvar metrics)) 999)
      else or_else (sharpe metrics) (- (999))
  | Returns None =>
      if String.eqb objective "risk" then 999 else - (999)
  | Throws _ =>
      (* the catch of the inner try *)
      if String.eqb objective "risk" then 999 else - (999)
  end.

(** [isValidWeightAllocation] (lines 214-220). *)
Definition isValidWeightAllocation (weights : Weights) : bool :=
  let sum := fold_left (fun a b => a + b) (values weights) 0 in
  let allNonNegative := forallb (fun w => Qle_bool 0 w) (values weights) in
  let allWithinBounds := forallb (fun w => Qle_bool w 100) (values weights) in
  allNonNegative && allWithinBounds && Qltb (Qabs (sum - 100)) (1 # 100).

(** [isMetricImprovement] (lines 225-231): both branches compare the same
    way. *)
Definition isMetricImprovement (newMetric currentBest : Q) (objective : string)
  : bool :=
  if String.eqb objective "risk" || String.eqb objective "cvar"
  then Qltb currentBest newMetric
  else Qltb currentBest newMetric.

(** [calculateGradients] (lines 149-180): for every asset, the first other
    asset that holds a step is decreased. *)
Definition calculateGradients (weights : Weights) (stepSize : Q)
    (objective : string) (calculateMetrics : Callback) : list (string * Q) :=
  let baseMetric := calculateObjectiveFunction weights objective calculateMetrics in
  map (fun asset =>
         let perturbedWeights := weights in
         let decreaseAsset :=
           find (fun otherAsset =>
                   negb (String.eqb otherAsset asset) &&
                   Qle_bool stepSize (get perturbedWeights otherAsset))
                (keys weights) in
         match decreaseAsset with
         | Some decreaseAsset =>
             if truthy_string decreaseAsset &&
                Qle_bool (get perturbedWeights asset + stepSize) 100
             then
               let perturbedWeights :=
                 update asset (fun w => w + stepSize) perturbedWeights in
               let perturbedWeights :=
                 update decreaseAsset (fun w => w - stepSize) perturbedWeights in
               if isValidWeightAllocation perturbedWeights then
                 let perturbedMetric :=
                   calculateObjectiveFunction perturbedWeights objective
                                              calculateMetrics in
                 (asset, (perturbedMetric - baseMetric) / stepSize)
               else (asset, 0)
             else (asset, 0)
         | None => (asset, 0)
         end)
      (keys weights).

(** The search for the largest weight in [normalizeWeights] of the class. *)
Definition largest_step (st : option string * Q) (e : string * Q)
  : option string * Q :=
  let '(largestAsset, largestWeight) := st in
  let '(asset, w) := e in
  if Qltb largestWeight w then (Some asset, w) else (largestAsset, largestWeight).

(** [normalizeWeights] of the class (lines 236-270). *)
Definition normalizeWeights (weights : Weights) : Weights :=
  let sum := fold_left (fun a b => a + b) (values weights) 0 in
  if Qltb 0 sum then
    let normalized :=
      map (fun '(asset, w) => (asset, round1 ((w / sum) * 100))) weights in
    let normalizedSum := fold_left (fun a b => a + b) (values normalized) 0 in
    let difference := round1 (100 - normalizedSum) in
    if Qltb 0 (Qabs difference) then
      let '(largestAsset, _) := fold_left largest_step normalized (None, - (1)) in
      match largestAsset with
      | Some largestAsset =>
          if truthy_string largestAsset then
            update largestAsset (fun w => round1 (w + difference)) normalized
          else normalized
      | None => normalized
      end
    else normalized
  else
    let equalWeight := round1 (100 / inject_Z (Z.of_nat (List.length (keys weights)))) in
    map (fun '(asset, _) => (asset, equalWeight)) weights.

(** [keys.sort((a, b) => gradients[b] - gradients[a])]: the sort is stable,
    an asset moves behind another only when the comparator is positive. *)
Fixpoint insert_desc (gradients : list (string * Q)) (a : string)
    (l : list string) : list string :=
  match l with
  | [] => [a]
  | b :: l' =>
      if Qltb 0 (get gradients b - get gradients a)
      then b :: insert_desc gradients a l'
      else a :: l
  end.

Definition sort_desc (gradients : list (string * Q)) (l : list string)
  : list string :=
  fold_right (insert_desc gradients) [] l.

(** The variables of the search loop. *)
Record State := mkState {
  currentWeights : Weights;
  bestMetric : Q;
  bestWeights : Weights;
  totalChanges : list (string * Q);
  iteration : Z;
  stagnationCount : Z
}.

Inductive Flow : Type :=
| Break (st : State)
| Next (st : State).

Section Search.

Variable this : Optimizer.
Variable objective : string.
Variable calculateMetrics : Callback.
Variable turnoverLimitPercent : Q.

Let step : Q := stepSize this.

(** The inner [for] over [assetsToDecrease] for one asset to increase: the
    first pair that is within budget and bounds, valid, and improves on the
    best metric. *)
Fixpoint scan_decrease (st : State) (asset : string)
    (assetsToDecrease : list string) : option State :=
  match assetsToDecrease with
  | [] => None
  | decreaseAsset :: rest =>
      if Qltb (Qabs (get (totalChanges st) decreaseAsset)) turnoverLimitPercent &&
         Qltb 0 (get (currentWeights st) decreaseAsset) &&
         Qle_bool 0 (get (currentWeights st) decreaseAsset - step)
      then
        let newWeights :=
          update decreaseAsset (fun w => w - step)
                 (update asset (fun w => w + step) (currentWeights st)) in
        if isValidWeightAllocation newWeights then
          let newMetric :=
            calculateObjectiveFunction newWeights objective calculateMetrics in
          if isMetricImprovement newMetric (bestMetric st) objective then
            Some (mkState newWeights newMetric newWeights
                          (update decreaseAsset (fun c => c - step)
                                  (update asset (fun c => c + step) (totalChanges st)))
                          (iteration st) 0)
          else scan_decrease st asset rest
        else scan_decrease st asset rest
      else scan_decrease st asset rest
  end.

(** The outer [for] over [assetsToIncrease]. *)
Fixpoint scan_increase (st : State) (assetsToIncrease assetsToDecrease : list string)
  : option State :=
  match assetsToIncrease with
  | [] => None
  | asset :: rest =>
      if Qltb (Qabs (get (totalChanges st) asset)) turnoverLimitPercent &&
         Qltb (get (currentWeights st) asset) 100 &&
         Qle_bool (get (currentWeights st) asset + step) 100
      then
        match scan_decrease st asset assetsToDecrease with
        | Some st' => Some st'
        | None => scan_increase st rest assetsToDecrease
        end
      else scan_increase st rest assetsToDecrease
  end.

(** One pass of the [while] body. *)
Definition iterate (st : State) : Flow :=
  let gradients :=
    calculateGradients (currentWeights st) step objective calculateMetrics in
  match keys gradients with
  | [] => Break st
  | _ =>
    let sortedAssets := sort_desc gradients (keys gradients) in
    let assetsToIncrease :=
      filter (fun asset => Qltb 0 (get gradients asset)) sortedAssets in
    let assetsToDecrease :=
      filter (fun asset => Qltb (get gradients asset) 0) sortedAssets in
    match assetsToIncrease, assetsToDecrease with
    | [], _ | _, [] =>
        Next (mkState (currentWeights st) (bestMetric st) (bestWeights st)
                      (totalChanges st) (iteration st + 1)
                      (stagnationCount st + 1))
    | _, _ =>
      let canIncrease :=
        existsb (fun asset =>
                   Qltb (Qabs (get (totalChanges st) asset)) turnoverLimitPercent &&
                   Qltb (get (currentWeights st) asset) 100)
                assetsToIncrease in
      let canDecrease :=
        existsb (fun asset =>
                   Qltb (Qabs (get (totalChanges st) asset)) turnoverLimitPercent &&
                   Qltb 0 (get (currentWeights st) asset))
                assetsToDecrease in
      if negb canIncrease || negb canDecrease then Break st
      else
        match scan_increase st assetsToIncrease assetsToDecrease with
        | Some st' =>
            (* improved: the move is applied, stagnation is reset *)
            Next (mkState (currentWeights st') (bestMetric st') (bestWeights st')
                          (totalChanges st') (iteration st + 1) 0)
        | None =>
            Next (mkState (currentWeights st) (bestMetric st) (bestWeights st)
                          (totalChanges st) (iteration st + 1)
                          (stagnationCount st + 1))
        end
    end
  end.

(** The condition of the [while] loop. *)
Definition loop_condition (maxIterations : Z) (st : State) : bool :=
  (iteration st <? maxIterations)%Z &&
  Qltb (inject_Z (stagnationCount st)) (maxStagnation this).

(** The [while] loop.  Every pass that does not leave the loop adds one to
    [iteration], so [maxIterations - iteration] passes are enough (lemma
    [search_while_loop]). *)
Fixpoint search (maxIterations : Z) (passes : nat) (st : State) : State :=
  match passes with
  | O => st
  | S passes' =>
      if loop_condition maxIterations st then
        match iterate st with
        | Break st' => st'
        | Next st' => search maxIterations passes' st'
        end
      else st
  end.

(** The [while] loop itself, with no bound on the passes: the state it is
    left in. *)
Inductive while_loop (maxIterations : Z) : State -> State -> Prop :=
| loop_exit st :
    loop_condition maxIterations st = false ->
    while_loop maxIterations st st
| loop_break st st' :
    loop_condition maxIterations st = true ->
    iterate st = Break st' ->
    while_loop maxIterations st st'
| loop_next st st' st'' :
    loop_condition maxIterations st = true ->
    iterate st = Next st' ->
    while_loop maxIterations st' st'' ->
    while_loop maxIterations st st''.

End Search.

Inductive OptimizationResult : Type :=
| Success (weights : Weights) (initialMetric finalMetric : Q)
          (iterations : Z) (improvement : Q)
| Failure (error : string).

Definition success (r : OptimizationResult) : bool :=
  match r with Success _ _ _ _ _ => true | Failure _ => false end.

(** [gradientDescentOptimization] (lines 22-139), the body of the outer
    [try]: [inl] is a thrown error.  [weights] is
    [None] for [null] or [undefined], on which [Object.keys] throws (the
    spread and the first evaluation come before it and do not throw). *)
Definition try_gradientDescentOptimization (this : Optimizer)
    (weights : option (list (string * jsval))) (objective : string)
    (calculateMetrics : Callback) (turnoverLimit : option Q)
  : string + OptimizationResult :=
  let turnoverLimitPercent :=
    match turnoverLimit with Some t => t | None => 1 end in
  let stepSize := stepSize this in
  let maxIterations := Qfloor (turnoverLimitPercent / stepSize) in
  match weights with
  | None => inl "Cannot convert undefined or null to object"%string
  | Some weights =>
    let currentWeights : Weights :=
      map (fun '(asset, v) => (asset, parseFloat_or0 v)) weights in
    let initialMetric :=
      calculateObjectiveFunction currentWeights objective calculateMetrics in
    let totalChanges := map (fun asset => (asset, 0)) (keys weights) in
    let st :=
      search this objective calculateMetrics turnoverLimitPercent maxIterations
             (Z.to_nat maxIterations)
             (mkState currentWeights initialMetric currentWeights totalChanges 0 0) in
    let finalWeights := normalizeWeights (bestWeights st) in
    inr (Success finalWeights initialMetric (bestMetric st) (iteration st)
                 (bestMetric st - initialMetric))
  end.

(** [gradientDescentOptimization] with its [catch]: a thrown error becomes
    the failure result. *)
Definition gradientDescentOptimization (this : Optimizer)
    (weights : option (list (string * jsval))) (objective : string)
    (calculateMetrics : Callback) (turnoverLimit : option Q)
  : OptimizationResult :=
  match try_gradientDescentOptimization this weights objective calculateMetrics
                                        turnoverLimit with
  | inr result => result
  | inl error => Failure error
  end.

End PortfolioOptimizer.

(** ** The embedded functions kept as a backup, in the file that follows the
       class (exact arithmetic) *)

Module Backup.

Import JS.
Local Open Scope Q_scope.


(** [backupIsMetricImprovement]: the objective is the field
    [this.optimizationObjective]; the metrics are compared as they are
    reported, lower being better for the two risk measures. *)
Definition backupIsMetricImprovement (optimizationObjective : string)
    (newMetric currentBest : Q) : bool :=
  if String.eqb optimizationObjective "risk"
     || String.eqb optimizationObjective "cvar"
  then Qltb newMetric currentBest
  else Qltb currentBest newMetric.


(** The inner [forEach] of [backupCalculatePortfolioReturns] at one asset:
    the state is [(portfolioReturn, totalValidWeight)].  A series holds
    numbers and [null] ([None]); an index outside it reads [undefined],
    which passes the test [!== null] and turns the sum into [NaN] (the
    [None] of the first component). *)
Definition backup_step (weights : list (string * jsval))
    (assets : list (string * list (option Q))) (index : nat)
    (st : option Q * Q) (asset : string) : option Q * Q :=
  let '(portfolioReturn, totalValidWeight) := st in
  let weight := PortfolioMetrics.weight_of weights asset in
  if Qltb 0 weight then
    match lookup asset assets with
    | Some series =>
        match nth_error series index with
        | Some (Some assetReturn) =>
            (option_map (fun p => p + (weight / 100) * assetReturn) portfolioReturn,
             totalValidWeight + weight)
        | Some None => (portfolioReturn, totalValidWeight)
        | None => (None, totalValidWeight + weight)
        end
    | None => (portfolioReturn, totalValidWeight)
    end
  else (portfolioReturn, totalValidWeight).

(** [backupCalculatePortfolioReturns]: [filteredData_assets] is the field
    [assets] of what [this.getFilteredReturnsData()] returns, [None] when
    it is missing.  A result of [None] is [NaN]. *)
Definition backupCalculatePortfolioReturns
    (filteredData_assets : option (list (string * list (option Q))))
    (indices : list nat) (weights : list (string * jsval)) : list (option Q) :=
  let totalWeight :=
    fold_left (fun sum weight => sum + parseFloat_or0 weight) (values weights) 0 in
  if Qeq_bool totalWeight 0 then map (fun _ => Some 0) indices
  else
    match filteredData_assets with
    | None => map (fun _ => Some 0) indices
    | Some assets =>
        map (fun index =>
               let '(portfolioReturn, totalValidWeight) :=
                 fold_left (backup_step weights assets index) (keys weights)
                           (Some 0, 0) in
               if Qltb 0 totalValidWeight && negb (Qeq_bool totalValidWeight 100)
               then option_map (fun p => p * (100 / totalValidWeight)) portfolioReturn
               else portfolioReturn)
            indices
    end.

End Backup.

(** ** The random search of [portfolio-metrics.js] (binary64)

    [optimizePortfolio] hands the series of the aggregator to the metrics
    engine, so it is embedded over the floats, and with it the aggregator
    and the standalone normalizer once more, as it calls them: on weight
    maps whose values are numbers. *)

Module RandomSearch.

Import MetricsEngine.
Local Open Scope float_scope.

(** A value of a weight map: a number, or the string [toFixed(1)] wrote,
    kept as the number it parses to. *)
Inductive Value : Type :=
| Number (x : float)
| Fixed (x : float).

(** [parseFloat(x)] for a number [x]: through its decimal string, which
    drops the sign of a zero. *)
Definition reparse (x : float) : float := if x =? 0 then 0 else x.

(** [parseFloat(v)]. *)
Definition parseFloat (v : Value) : float :=
  match v with
  | Number x => reparse x
  | Fixed x => x
  end.

(** [x || 0] for a number [x]: [NaN] and the zeros are falsy. *)
Definition or0 (x : float) : float :=
  if PrimFloat.is_nan x || (x =? 0) then 0 else x.

(** [obj[key] = value]: a key of the object keeps its place, a new key is
    added at the end. *)
Fixpoint assign {A : Type} (key : string) (value : A) (obj : list (string * A))
  : list (string * A) :=
  match obj with
  | [] => [(key, value)]
  | (k, v) :: rest =>
      if String.eqb k key then (k, value) :: rest
      else (k, v) :: assign key value rest
  end.

(** [calculatePortfolioReturns] (js/portfolio-metrics.js, lines 158-188) on
    a map of numbers. *)
Definition calculatePortfolioReturns (weights : list (string * float))
    (assetReturns : list (string * list (option float))) (indices : list nat)
  : list float :=
  let totalWeight :=
    fold_left (fun sum weight => sum + or0 weight) (JS.values weights) 0 in
  if totalWeight =? 0 then map (fun _ => 0) indices
  else
    let activeAssets :=
      filter (fun asset =>
                let weight :=
                  match JS.lookup asset weights with
                  | Some w => or0 w
                  | None => 0
                  end in
                (0 <? weight) &&
                match JS.lookup asset assetReturns with
                | Some _ => true
                | None => false
                end)
             (JS.keys weights) in
    match activeAssets with
    | [] => map (fun _ => 0) indices
    | _ =>
      map (fun index =>
             fold_left
               (fun portfolioReturn asset =>
                  let weight :=
                    match JS.lookup asset weights with
                    | Some w => reparse w
                    | None => nan
                    end in
                  match JS.lookup asset assetReturns with
                  | Some series =>
                      match nth_error series index with
                      | Some (Some assetReturn) =>
                          portfolioReturn + (weight / 100) * assetReturn
                      | _ => portfolioReturn
                      end
                  | None => portfolioReturn
                  end)
               activeAssets 0)
          indices
    end.

Definition largest_step (st : option string * float) (e : string * Value)
  : option string * float :=
  let '(largestAsset, largestWeight) := st in
  let '(asset, v) := e in
  let weight := parseFloat v in
  if largestWeight <? weight then (Some asset, weight)
  else (largestAsset, largestWeight).

Section Search.

Variable Date_parse : string -> float.
Variable Math_pow : float -> float -> float.

(** [parseFloat(x.toFixed(1))]. *)
Variable toFixed1 : float -> float.

(** [Math.random()]: the result of the call that comes after [k] calls. *)
Variable Math_random : nat -> float.

(** The standalone [normalizeWeights] (js/portfolio-metrics.js, lines
    195-232). *)
Definition normalizeWeights (weights : list (string * Value))
  : list (string * Value) :=
  let sum :=
    fold_left (fun a b => or0 (reparse a) + or0 (parseFloat b))
              (JS.values weights) 0 in
  if 0 <? sum then
    let normalizedWeights :=
      map (fun '(asset, v) =>
             (asset, Fixed (toFixed1 (reparse (or0 (parseFloat v) / sum * 100)))))
          weights in
    let roundedSum :=
      fold_left (fun a b => reparse a + parseFloat b)
                (JS.values normalizedWeights) 0 in
    let difference := toFixed1 (100 - roundedSum) in
    if 0 <? Math_abs difference then
      let '(largestAsset, _) :=
        fold_left largest_step normalizedWeights (None, -1) in
      match largestAsset with
      | Some largestAsset =>
          if JS.truthy_string largestAsset then
            JS.update largestAsset
                      (fun v => Number (toFixed1 (parseFloat v + difference)))
                      normalizedWeights
          else normalizedWeights
      | None => normalizedWeights
      end
    else normalizedWeights
  else weights.

Record Config := mkConfig {
  assets : list string;
  returns : list (string * list (option float));
  objective : option string;   (** ['sharpe'] when left out *)
  iterations : option nat      (** the passes of the [for] loop; 1000 when
                                   left out *)
}.

(** The [switch] on the objective. *)
Definition score_of (objective : string) (metrics : MetricsResult) : float :=
  if String.eqb objective "sharpe" then sharpe metrics
  else if String.eqb objective "risk" then - volatility metrics
  else if String.eqb objective "sortino" then sortino metrics
  else if String.eqb objective "cvar" then - cvar metrics
  else sharpe metrics.

(** The equal weights [bestWeights] starts from. *)
Definition initial_weights (assets : list string) : list (string * float) :=
  let numAssets := length_num assets in
  fold_left (fun bestWeights asset => assign asset (100 / numAssets) bestWeights)
            assets [].

(** One pass of the [for] loop; the state is [(bestWeights, bestScore,
    calls)], [calls] being the calls of [Math.random] made so far. *)
Definition pass (assets : list string)
    (returns : list (string * list (option float))) (objective : string)
    (st : list (string * float) * float * nat)
  : list (string * float) * float * nat :=
  let '(bestWeights, bestScore, calls) := st in
  let randomWeights :=
    map (fun j => Math_random (calls + j)) (seq 0 (List.length assets)) in
  let calls := (calls + List.length assets)%nat in
  let sum := fold_left (fun a b => a + b) randomWeights 0 in
  let weights :=
    fold_left (fun weights '(asset, r) => assign asset (r / sum * 100) weights)
              (combine assets randomWeights) [] in
  let first := match assets with [] => "undefined"%string | a :: _ => a end in
  let length :=
    match JS.lookup first returns with
    | Some series => List.length series
    | None => 0%nat
    end in
  let portfolioReturns := calculatePortfolioReturns weights returns (seq 0 length) in
  match portfolioReturns with
  | [] => (bestWeights, bestScore, calls)
  | _ =>
    let metrics :=
      calculateMetricsForReturns Date_parse Math_pow portfolioReturns None None in
    let score := score_of objective metrics in
    let isImprovement :=
      if String.eqb objective "risk" then bestScore <? score
      else bestScore <? score in
    if isImprovement then (weights, score, calls)
    else (bestWeights, bestScore, calls)
  end.

(** [optimizePortfolio] (js/portfolio-metrics.js, lines 304-372). *)
Definition optimizePortfolio (config : Config) : list (string * Value) :=
  let objective :=
    match objective config with Some o => o | None => "sharpe"%string end in
  let iterations :=
    match iterations config with Some n => n | None => 1000%nat end in
  let bestScore :=
    if String.eqb objective "risk" then infinity else neg_infinity in
  let '(bestWeights, _, _) :=
    fold_left (fun st _ => pass (assets config) (returns config) objective st)
              (seq 0 iterations)
              (initial_weights (assets config), bestScore, 0%nat) in
  normalizeWeights (map (fun '(asset, w) => (asset, Number w)) bestWeights).

End Search.

End RandomSearch.

(** ** Definitions that follow the words of the specification, and the
       invariants and inputs the properties below are stated with *)

Module Spec.

(** The length heuristic of the frequency detector, as the specification
    words it: length>1000 daily, >200 weekly, >50 monthly, >10 quarterly,
    else annual. *)
Definition length_heuristic (n : nat) : MetricsEngine.FrequencyInfo :=
  let mk p nm := MetricsEngine.mkFrequency p nm (MetricsEngine.Math_sqrt p) in
  if (1000 <? n)%nat then mk 252%float "daily"%string
  else if (200 <? n)%nat then mk 52%float "weekly"%string
  else if (50 <? n)%nat then mk 12%float "monthly"%string
  else if (10 <? n)%nat then mk 4%float "quarterly"%string
  else mk 1%float "annual"%string.

(** A [Math.pow] to instantiate the engine with: exact on the cases the
    language fixes (a zero or [NaN] base), repeated multiplication for the
    exponents 1 to 4, and square roots for 1/2 and 3/2. *)
Definition pow_small (x e : float) : float :=
  if PrimFloat.is_nan x then (if PrimFloat.eqb e 0 then 1%float else nan)
  else if PrimFloat.eqb x 0
       then (if PrimFloat.ltb 0 e then 0%float
             else if PrimFloat.eqb e 0 then 1%float else infinity)
  else if PrimFloat.eqb e 1 then x
  else if PrimFloat.eqb e 2 then (x * x)%float
  else if PrimFloat.eqb e 3 then (x * x * x)%float
  else if PrimFloat.eqb e 4 then (x * x * x * x)%float
  else if PrimFloat.eqb e 0.5 then PrimFloat.sqrt x
  else if PrimFloat.eqb e 1.5 then (x * PrimFloat.sqrt x)%float
  else nan.

Local Open Scope Q_scope.

(** One link of the cumulative chain. *)
Definition link (previous r : Q) : Q :=
  (1 + previous / 100) * (1 + r / 100) * 100 - 100.

(** The signed penalty of a failed evaluation. *)
Definition penalty (objective : string) : Q :=
  if String.eqb objective "risk" then 999 else - (999).

Definition sumQ (l : list Q) : Q := fold_right Qplus 0 l.

Definition sumZ (l : list Z) : Z := fold_right Z.add 0%Z l.

(** The terms of the portfolio return at an index: one term
    [weight/100 * value] for every asset with a positive weight and a
    defined value at that index; the other assets are skipped. *)
Definition contributions (weights : list (string * JS.jsval))
    (assetReturns : list (string * list (option Q))) (index : nat) : list Q :=
  flat_map (fun '(asset, v) =>
              let w := JS.parseFloat_or0 v in
              if JS.Qltb 0 w then
                match JS.lookup asset assetReturns with
                | Some series =>
                    match PortfolioMetrics.entry series index with
                    | Some r => [w / 100 * r]
                    | None => []
                    end
                | None => []
                end
              else [])
           weights.

Definition portfolio_return (weights : list (string * JS.jsval))
    (assetReturns : list (string * list (option Q))) (index : nat) : Q :=
  sumQ (contributions weights assetReturns index).

Definition total_weight (weights : list (string * JS.jsval)) : Q :=
  sumQ (map JS.parseFloat_or0 (JS.values weights)).

(** A weight map read through [parseFloat(v) || 0]. *)
Definition parsed (weights : list (string * JS.jsval)) : list (string * Q) :=
  map (fun '(asset, v) => (asset, JS.parseFloat_or0 v)) weights.

(** A weight map the optimizer returned, given as an input again. *)
Definition as_input (weights : list (string * Q)) : list (string * JS.jsval) :=
  map (fun '(asset, w) => (asset, JS.VNum w)) weights.

(** What an applied move of the search establishes. *)
Definition moved (objective : string) (calculateMetrics : PortfolioOptimizer.Callback)
    (st st' : PortfolioOptimizer.State) : Prop :=
  PortfolioOptimizer.isValidWeightAllocation (PortfolioOptimizer.bestWeights st') = true
  /\ PortfolioOptimizer.currentWeights st' = PortfolioOptimizer.bestWeights st'
  /\ JS.keys (PortfolioOptimizer.bestWeights st')
     = JS.keys (PortfolioOptimizer.currentWeights st)
  /\ PortfolioOptimizer.bestMetric st < PortfolioOptimizer.bestMetric st'
  /\ PortfolioOptimizer.bestMetric st'
     = PortfolioOptimizer.calculateObjectiveFunction
         (PortfolioOptimizer.bestWeights st') objective calculateMetrics.

(** What holds of the variables of the search loop all along: the asset
    names [keys0] do not change, the best weights are the initial ones [w0]
    or a valid allocation, and the best metric is the objective at the best
    weights and is not below the initial metric [m0]. *)
Definition search_invariant (objective : string)
    (calculateMetrics : PortfolioOptimizer.Callback)
    (keys0 : list string) (w0 : list (string * Q)) (m0 : Q)
    (st : PortfolioOptimizer.State) : Prop :=
  JS.keys (PortfolioOptimizer.currentWeights st) = keys0
  /\ JS.keys (PortfolioOptimizer.bestWeights st) = keys0
  /\ (PortfolioOptimizer.bestWeights st = w0
      \/ PortfolioOptimizer.isValidWeightAllocation
           (PortfolioOptimizer.bestWeights st) = true)
  /\ m0 <= PortfolioOptimizer.bestMetric st
  /\ PortfolioOptimizer.bestMetric st
     = PortfolioOptimizer.calculateObjectiveFunction
         (PortfolioOptimizer.bestWeights st) objective calculateMetrics.

(** The post-normalization invariant of a weight map, on its numbers: every
    weight in [0, 100], the sum within 0.05 of 100. *)
Definition post_normalization (ws : list Q) : Prop :=
  Forall (fun w => 0 <= w <= 100) ws
  /\ Qabs (fold_left (fun a b => a + b) ws 0 - 100) <= 5 # 100.

(** [n] assets of weight [w] each, under distinct two-character names. *)
Definition equal_weights (n : nat) (w : Q) : list (string * JS.jsval) :=
  map (fun i => (String (Ascii.ascii_of_nat 65) (String (Ascii.ascii_of_nat (40 + i)) EmptyString),
                 JS.VNum w))
      (seq 0 n).

(** No asset is active: none has both a positive weight and a series. *)
Definition no_active_asset (weights : list (string * JS.jsval))
    (assetReturns : list (string * list (option Q))) : Prop :=
  forall asset v, In (asset, v) weights ->
    JS.Qltb 0 (JS.parseFloat_or0 v) = false \/ JS.lookup asset assetReturns = None.

End Spec.

(** ** Definitions the further properties are stated with *)

Module Laws.

Local Open Scope Q_scope.


(** The return series with every [null] entry replaced by a zero return. *)
Definition zero_filled (assetReturns : list (string * list (option Q)))
  : list (string * list (option Q)) :=
  map (fun '(asset, series) =>
         (asset, map (fun v => match v with Some r => Some r | None => Some 0 end)
                     series))
      assetReturns.

(** The weight that has a value at an index: the sum of the positive
    weights of the assets whose series holds a number there. *)
Definition valid_weight (weights : list (string * JS.jsval))
    (assetReturns : list (string * list (option Q))) (index : nat) : Q :=
  Spec.sumQ
    (flat_map (fun '(asset, v) =>
                 let w := JS.parseFloat_or0 v in
                 if JS.Qltb 0 w then
                   match JS.lookup asset assetReturns with
                   | Some series =>
                       match PortfolioMetrics.entry series index with
                       | Some _ => [w]
                       | None => []
                       end
                   | None => []
                   end
                 else [])
              weights).

(** What holds of the variables of the search loop all along, besides
    [Spec.search_invariant]: the current weights are the best ones; they
    add up to what the initial weights [w0] add up to; no weight is further
    from its initial value than one step for every pass made; and the best
    weights are the initial ones, with the initial metric [m0], or a valid
    allocation with a metric above it. *)
Definition run_invariant (step : Q) (w0 : list (string * Q)) (m0 : Q)
    (st : PortfolioOptimizer.State) : Prop :=
  PortfolioOptimizer.currentWeights st = PortfolioOptimizer.bestWeights st
  /\ JS.keys (PortfolioOptimizer.bestWeights st) = JS.keys w0
  /\ Spec.sumQ (JS.values (PortfolioOptimizer.bestWeights st))
     == Spec.sumQ (JS.values w0)
  /\ (0 <= PortfolioOptimizer.iteration st)%Z
  /\ (forall asset,
         Qabs (PortfolioOptimizer.get (PortfolioOptimizer.bestWeights st) asset
               - PortfolioOptimizer.get w0 asset)
         <= inject_Z (PortfolioOptimizer.iteration st) * Qabs step)
  /\ ((PortfolioOptimizer.bestWeights st = w0
       /\ PortfolioOptimizer.bestMetric st = m0)
      \/ (m0 < PortfolioOptimizer.bestMetric st
          /\ PortfolioOptimizer.isValidWeightAllocation
               (PortfolioOptimizer.bestWeights st) = true)).

End Laws.

(* ================================================================== *)
(** * Part II: properties                                              *)
(* ================================================================== *)

(** ** Frequency detector *)

Section FrequencyDetector.

Import MetricsEngine.
Local Open Scope float_scope.

Variable Date_parse : string -> float.

(** Whatever the input, the result is one of the five frequencies, with
    [factor = sqrt periods]. *)
Lemma detectFrequency_valid (returns : list float) (dates : option (list string)) :
  let fi := detectFrequency Date_parse returns dates in
  In (periods fi) [252; 52; 12; 4; 1] /\ factor fi = Math_sqrt (periods fi).
Proof.
  unfold detectFrequency.
  destruct dates as [[|d0 [|d1 rest]]|];
    repeat match goal with
           | |- context [if ?b then _ else _] => destruct b
           end;
    cbn [periods factor]; (split; [cbn; tauto | vm_compute; reflexivity]).
Qed.

(** Two labels that do not parse make [daysDiff] a [NaN]: every comparison
    fails and the last [return] of the [try] block is taken. *)
Lemma detectFrequency_invalid_dates (returns : list float) (d0 d1 : string)
    (rest : list string) :
  Date_parse d0 = nan -> Date_parse d1 = nan ->
  detectFrequency Date_parse returns (Some (d0 :: d1 :: rest))
  = mkFrequency 1 "annual" 1.
Proof.
  intros H0 H1. unfold detectFrequency. rewrite H0, H1.
  vm_compute. reflexivity.
Qed.

End FrequencyDetector.

(** C8 (the code departs from the claim).  With at least two date labels
    of which the first two do not parse, the detector does not fall back to
    the length heuristic: whatever the length of the series it answers
    annual, 1 period a year.  [new Date] does not throw on such a label, so
    the [catch] that was to fall back is never entered. *)
Theorem detectFrequency_unparsable_dates_skip_heuristic
    (Date_parse : string -> float) (returns : list float)
    (d0 d1 : string) (rest : list string) :
  Date_parse d0 = nan -> Date_parse d1 = nan ->
  MetricsEngine.detectFrequency Date_parse returns (Some (d0 :: d1 :: rest))
  = MetricsEngine.mkFrequency 1 "annual" 1.
Proof.
  intros H0 H1. now apply detectFrequency_invalid_dates.
Qed.

(** On 36 returns with the labels "n/a", "n/a" the answer is annual, where
    the length heuristic, which is what the detector applies without dates,
    answers quarterly. *)
Lemma detectFrequency_unparsable_dates_skip_heuristic_witness :
  let returns := repeat 1%float 36 in
  MetricsEngine.detectFrequency (fun _ => nan) returns (Some ["n/a"; "n/a"]%string)
  = MetricsEngine.mkFrequency 1 "annual" 1
  /\ Spec.length_heuristic (List.length returns)
     = MetricsEngine.mkFrequency 4 "quarterly" 2
  /\ MetricsEngine.detectFrequency (fun _ => nan) returns None
     = Spec.length_heuristic (List.length returns).
Proof.
  cbv zeta. split; [| split].
  - apply detectFrequency_unparsable_dates_skip_heuristic; reflexivity.
  - vm_compute. reflexivity.
  - vm_compute. reflexivity.
Defined.

(** ** Metrics engine *)

Section MetricsEngineFacts.

Import MetricsEngine.
Local Open Scope float_scope.

Variable Date_parse : string -> float.
Variable Math_pow : float -> float -> float.

(** What the language fixes about [Math.pow]: a zero base with a positive
    exponent gives zero, a [NaN] base with a non-zero exponent gives [NaN]. *)
Hypothesis pow_zero : forall e, (0 <? e) = true -> Math_pow 0 e = 0.
Hypothesis pow_nan : forall e, (e =? 0) = false -> Math_pow nan e = nan.

Ltac eval_pow :=
  repeat (cbv; first [ rewrite pow_zero by reflexivity
                     | rewrite pow_nan by reflexivity ]);
  cbv.

(** A constant series: Sharpe and Sortino are guarded and come out as 0. *)
Lemma constant_series_guarded :
  let m := calculateMetricsForReturns Date_parse Math_pow [5; 5] None None in
  sharpe m = 0 /\ sortino m = 0.
Proof. split; eval_pow; reflexivity. Qed.

(** A zero-variance benchmark: beta is guarded and comes out as 0. *)
Lemma constant_benchmark_beta :
  beta (calculateAdditionalMetrics Date_parse Math_pow [5; 7] (Some [3; 3]) None) = 0.
Proof. eval_pow. reflexivity. Qed.

(** Skewness and kurtosis are not guarded. *)
Lemma constant_series_unguarded :
  let m := calculateAdditionalMetrics Date_parse Math_pow [5; 5] None None in
  skewness m = nan /\ kurtosis m = nan.
Proof. split; eval_pow; reflexivity. Qed.

Lemma single_element_unguarded :
  let m := calculateAdditionalMetrics Date_parse Math_pow [5] None None in
  skewness m = nan /\ kurtosis m = nan.
Proof. split; eval_pow; reflexivity. Qed.

(** C9 (the code departs from the claim).  On the constant series [5, 5]
    the guarded ratios are 0 (Sharpe, Sortino, and beta against the
    zero-variance benchmark [3, 3]), but skewness and kurtosis divide by a
    zero power of the variance without a guard and are [NaN]; so are they on
    the one-element series [5], whose [n - 1] divisor is 0. *)
Theorem zero_variance_skewness_kurtosis_nan :
  let m := calculateMetricsForReturns Date_parse Math_pow [5; 5] None None in
  let a := calculateAdditionalMetrics Date_parse Math_pow [5; 5] (Some [3; 3]) None in
  let a1 := calculateAdditionalMetrics Date_parse Math_pow [5] None None in
  (sharpe m = 0 /\ sortino m = 0 /\ beta a = 0)
  /\ (skewness a = nan /\ kurtosis a = nan)
  /\ (skewness a1 = nan /\ kurtosis a1 = nan).
Proof.
  cbv zeta. split; [|split].
  - split; [apply constant_series_guarded|].
    split; [apply constant_series_guarded|].
    eval_pow. reflexivity.
  - split; eval_pow; reflexivity.
  - apply single_element_unguarded.
Qed.

End MetricsEngineFacts.

(** [Spec.pow_small] has the two properties of [Math.pow] used above. *)
Lemma pow_small_zero (e : float) :
  PrimFloat.ltb 0 e = true -> Spec.pow_small 0 e = 0%float.
Proof.
  intros H. unfold Spec.pow_small.
  change (PrimFloat.is_nan 0) with false. change (PrimFloat.eqb 0 0) with true.
  cbv iota. rewrite H. reflexivity.
Defined.

Lemma pow_small_nan (e : float) :
  PrimFloat.eqb e 0 = false -> Spec.pow_small nan e = nan.
Proof.
  intros H. unfold Spec.pow_small.
  change (PrimFloat.is_nan nan) with true. cbv iota. rewrite H. reflexivity.
Defined.

(** The same without dates and with [Spec.pow_small] for [Math.pow]. *)
Lemma zero_variance_skewness_kurtosis_nan_witness :
  let Date_parse := fun _ : string => nan in
  let m := MetricsEngine.calculateMetricsForReturns
             Date_parse Spec.pow_small [5; 5]%float None None in
  let a := MetricsEngine.calculateAdditionalMetrics
             Date_parse Spec.pow_small [5; 5]%float (Some [3; 3]%float) None in
  let a1 := MetricsEngine.calculateAdditionalMetrics
              Date_parse Spec.pow_small [5]%float None None in
  (MetricsEngine.sharpe m = 0 /\ MetricsEngine.sortino m = 0
   /\ MetricsEngine.beta a = 0)%float
  /\ (MetricsEngine.skewness a = nan /\ MetricsEngine.kurtosis a = nan)
  /\ (MetricsEngine.skewness a1 = nan /\ MetricsEngine.kurtosis a1 = nan).
Proof.
  exact (zero_variance_skewness_kurtosis_nan
           (fun _ => nan) Spec.pow_small pow_small_zero pow_small_nan).
Defined.

(** ** Return aggregator *)

Section Cumulative.

Import PortfolioMetrics.
Local Open Scope Q_scope.

Lemma cumulative_fold (returns : list Q) (n : nat) :
  let st := fold_left (cumulative_step returns) (seq 0 n) (0, []) in
  List.length (snd st) = n
  /\ fst st = nth (n - 1) (snd st) 0
  /\ nth 0 (snd st) 0 = 0
  /\ forall i, (1 <= i < n)%nat ->
       nth i (snd st) 0 = Spec.link (nth (i - 1) (snd st) 0) (nth (i - 1) returns 0).
Proof.
  induction n as [|n IH].
  - cbn. repeat split; auto. intros i Hi. lia.
  - rewrite seq_S, fold_left_app. cbn [fold_left Nat.add].
    cbv zeta in IH.
    destruct (fold_left (cumulative_step returns) (seq 0 n) (0, [])) as [c res].
    cbn [fst snd] in IH. destruct IH as (Hlen & Hc & H0 & Hlink).
    unfold cumulative_step.
    destruct n as [|n].
    + destruct res; [|discriminate]. cbn. repeat split; auto.
      intros i Hi. lia.
    + cbn [Nat.eqb fst snd].
      repeat split.
      * rewrite length_app, Hlen. cbn. lia.
      * replace (S (S n) - 1)%nat with (List.length res) by lia.
        rewrite nth_middle. reflexivity.
      * rewrite app_nth1 by lia. exact H0.
      * intros i Hi.
        destruct (Nat.eq_dec i (S n)) as [->|Hne].
        -- replace (S n) with (List.length res) at 1 by lia.
           rewrite nth_middle.
           rewrite app_nth1 by lia.
           rewrite Hc. reflexivity.
        -- rewrite !app_nth1 by lia. apply Hlink. lia.
Qed.

(** C7.  The cumulative series has the length of the input, starts at
    exactly 0, and every later element chains the previous element with the
    previous period's return:
    cumulative[i] = (1 + cumulative[i-1]/100)(1 + returns[i-1]/100)100 - 100. *)
Theorem calculateCumulativeReturns_chain (returns : list Q) :
  List.length (calculateCumulativeReturns returns) = List.length returns
  /\ hd_error (calculateCumulativeReturns returns)
     = match returns with [] => None | _ => Some 0 end
  /\ forall i, (1 <= i < List.length returns)%nat ->
       nth i (calculateCumulativeReturns returns) 0
       = (1 + nth (i - 1) (calculateCumulativeReturns returns) 0 / 100)
         * (1 + nth (i - 1) returns 0 / 100) * 100 - 100.
Proof.
  unfold calculateCumulativeReturns.
  destruct returns as [|r0 returns'] eqn:E.
  - cbn. repeat split; auto. intros i Hi; lia.
  - rewrite <- E.
    assert (Hn : List.length returns = S (List.length returns')) by (subst; reflexivity).
    pose proof (cumulative_fold returns (List.length returns)) as H.
    cbv zeta in H. destruct H as (Hlen & _ & H0 & Hlink).
    repeat split.
    + exact Hlen.
    + destruct (snd (fold_left (cumulative_step returns)
                               (seq 0 (List.length returns)) (0, []))) as [|x l].
      * rewrite Hn in Hlen. discriminate.
      * cbn in H0 |- *. now rewrite H0.
    + exact Hlink.
Qed.

End Cumulative.

Section Objects.

Import JS.
Variable A : Type.

Lemma lookup_In (key : string) (obj : list (string * A)) (v : A) :
  lookup key obj = Some v -> In (key, v) obj.
Proof.
  induction obj as [|[k x] obj IH]; cbn; [discriminate|].
  destruct (String.eqb k key) eqn:E.
  - apply String.eqb_eq in E. intros [= ->]. left. now subst.
  - intros H. right. auto.
Qed.

Lemma lookup_NoDup (obj : list (string * A)) (key : string) (v : A) :
  NoDup (keys obj) -> In (key, v) obj -> lookup key obj = Some v.
Proof.
  induction obj as [|[k x] obj IH]; cbn; [tauto|].
  intros Hnd [Heq | Hin].
  - injection Heq as -> ->. now rewrite String.eqb_refl.
  - inversion Hnd as [|? ? Hnotin Hnd']; subst.
    destruct (String.eqb k key) eqn:E.
    + apply String.eqb_eq in E. subst. exfalso. apply Hnotin.
      change key with (fst (key, v)). now apply in_map.
    + now apply IH.
Qed.

Lemma lookup_key (obj : list (string * A)) (key : string) :
  In key (keys obj) -> exists v, lookup key obj = Some v.
Proof.
  induction obj as [|[k x] obj IH]; cbn; [tauto|].
  intros [-> | Hin].
  - rewrite String.eqb_refl. eauto.
  - destruct (String.eqb k key); eauto.
Qed.

End Objects.

Section SumFacts.

Local Open Scope Q_scope.

Lemma fold_left_Qplus (A : Type) (f : A -> Q) (l : list A) (acc : Q) :
  fold_left (fun a b => a + f b) l acc == acc + Spec.sumQ (map f l).
Proof.
  revert acc. unfold Spec.sumQ.
  induction l as [|x l IH]; intros acc; cbn [fold_left map fold_right].
  - ring.
  - rewrite IH. ring.
Qed.

Lemma sumQ_app (l1 l2 : list Q) :
  Spec.sumQ (l1 ++ l2) == Spec.sumQ l1 + Spec.sumQ l2.
Proof.
  unfold Spec.sumQ.
  induction l1 as [|x l1 IH]; cbn [app fold_right].
  - ring.
  - rewrite IH. ring.
Qed.

Lemma Qeq_bool_compat (x y z : Q) : x == y -> Qeq_bool x z = Qeq_bool y z.
Proof.
  intros H. destruct (Qeq_bool y z) eqn:E.
  - apply Qeq_bool_iff in E. apply Qeq_bool_iff. now rewrite H.
  - apply Qeq_bool_neq in E. destruct (Qeq_bool x z) eqn:E'; [|reflexivity].
    apply Qeq_bool_iff in E'. exfalso. apply E. now rewrite <- H.
Qed.

End SumFacts.

Section Aggregator.

Import JS PortfolioMetrics.
Local Open Scope Q_scope.

Variable weights : list (string * jsval).
Variable assetReturns : list (string * list (option Q)).

Let active (asset : string) : bool :=
  Qltb 0 (weight_of weights asset) &&
  match lookup asset assetReturns with Some _ => true | None => false end.

Let add_asset (index : nat) (portfolioReturn : Q) (asset : string) : Q :=
  match lookup asset assetReturns with
  | Some series =>
      match entry series index with
      | Some assetReturn => portfolioReturn + (weight_of weights asset / 100) * assetReturn
      | None => portfolioReturn
      end
  | None => portfolioReturn
  end.

(** The inner [forEach] over the active assets adds up the contributions of
    the entries it ranges over. *)
Lemma fold_active_assets (index : nat) (l : list (string * jsval)) :
  (forall a v, In (a, v) l -> lookup a weights = Some v) ->
  forall acc,
    fold_left (add_asset index) (filter active (keys l)) acc
    == acc + Spec.portfolio_return l assetReturns index.
Proof.
  unfold Spec.portfolio_return, Spec.contributions.
  induction l as [|[a v] l IH]; intros Hl acc.
  - cbn. ring.
  - cbn [keys map fst filter flat_map].
    assert (Hw : weight_of weights a = parseFloat_or0 v).
    { unfold weight_of. rewrite (Hl a v) by (left; reflexivity). reflexivity. }
    rewrite sumQ_app.
    specialize (IH (fun a' v' H => Hl a' v' (or_intror H))).
    unfold active at 1. rewrite Hw.
    destruct (Qltb 0 (parseFloat_or0 v)); cbn [andb].
    + destruct (lookup a assetReturns) as [series|] eqn:Es.
      * cbn [fold_left]. fold (keys l). rewrite IH.
        unfold add_asset. rewrite Es, Hw.
        destruct (entry series index); cbn; ring.
      * fold (keys l). rewrite IH. cbn. ring.
    + fold (keys l). rewrite IH. cbn. ring.
Qed.

Lemma no_active_filter :
  Spec.no_active_asset weights assetReturns -> filter active (keys weights) = [].
Proof.
  intros H. unfold keys.
  assert (Hall : forall a, In a (map fst weights) -> active a = false).
  { intros a Ha. destruct (lookup_key weights a Ha) as [v Hv].
    unfold active, weight_of. rewrite Hv.
    destruct (H a v (lookup_In _ _ Hv)) as [-> | ->]; [reflexivity|].
    now rewrite andb_false_r. }
  induction (map fst weights) as [|a l IH]; [reflexivity|].
  cbn. rewrite Hall by (left; reflexivity). apply IH.
  intros a' Ha'. apply Hall. now right.
Qed.

Lemma calculatePortfolioReturns_length (indices : list nat) :
  List.length (calculatePortfolioReturns weights assetReturns indices)
  = List.length indices.
Proof.
  unfold calculatePortfolioReturns.
  destruct (Qeq_bool _ 0); [now rewrite length_map|].
  destruct (filter _ _); now rewrite length_map.
Qed.

Lemma calculatePortfolioReturns_zero (indices : list nat) :
  Spec.total_weight weights == 0 \/ Spec.no_active_asset weights assetReturns ->
  calculatePortfolioReturns weights assetReturns indices
  = map (fun _ => 0) indices.
Proof.
  intros H. unfold calculatePortfolioReturns.
  destruct (Qeq_bool _ 0) eqn:E; [reflexivity|].
  destruct H as [H | H].
  - exfalso. apply Qeq_bool_neq in E. apply E.
    rewrite fold_left_Qplus. unfold Spec.total_weight in H. rewrite H. ring.
  - fold active. now rewrite (no_active_filter H).
Qed.

Lemma calculatePortfolioReturns_at (indices : list nat) (k index : nat) :
  NoDup (keys weights) ->
  nth_error indices k = Some index ->
  exists r,
    nth_error (calculatePortfolioReturns weights assetReturns indices) k = Some r
    /\ r == (if Qeq_bool (Spec.total_weight weights) 0 then 0
             else Spec.portfolio_return weights assetReturns index).
Proof.
  intros Hnd Hk. unfold calculatePortfolioReturns.
  rewrite (Qeq_bool_compat (y := Spec.total_weight weights) 0)
    by (rewrite fold_left_Qplus; unfold Spec.total_weight; ring).
  destruct (Qeq_bool (Spec.total_weight weights) 0).
  - exists 0. rewrite nth_error_map, Hk. split; reflexivity.
  - fold active.
    pose proof (fold_active_assets index weights
                  (fun a v H => lookup_NoDup weights a v Hnd H) 0) as Hsum.
    destruct (filter active (keys weights)) as [|a l] eqn:Ef.
    + exists 0. rewrite nth_error_map, Hk. split; [reflexivity|].
      cbn in Hsum. rewrite Hsum. ring.
    + eexists. rewrite nth_error_map, Hk. split; [reflexivity|].
      fold (add_asset index). rewrite Hsum. ring.
Qed.

End Aggregator.

Lemma entry_map_Some (a : list Q) (i : nat) :
  (i < List.length a)%nat ->
  PortfolioMetrics.entry (map Some a) i = Some (nth i a 0%Q).
Proof.
  intros H. unfold PortfolioMetrics.entry.
  rewrite nth_error_map, (nth_error_nth' a 0%Q H). reflexivity.
Qed.

(** C6.  With the weights A:60, B:40 and both series defined at the indices
    0..11 the result at every index is 0.6 A[i] + 0.4 B[i].  In general the
    result has the length of the index list; at every requested index it is
    the sum of weight/100 * value over the assets with a positive weight and
    a defined value there (an asset without a value is skipped); and a zero
    total weight, or no active asset, gives zeros only. *)
Theorem calculatePortfolioReturns_weighted_sum :
  (forall (a b : list Q) (i : nat),
      List.length a = 12%nat -> List.length b = 12%nat -> (i < 12)%nat ->
      nth i (PortfolioMetrics.calculatePortfolioReturns
               [("A"%string, JS.VNum 60); ("B"%string, JS.VNum 40)]
               [("A"%string, map Some a); ("B"%string, map Some b)]
               (seq 0 12)) 0
      == (6 # 10) * nth i a 0 + (4 # 10) * nth i b 0)%Q
  /\ (forall weights assetReturns indices,
         NoDup (JS.keys weights) ->
         List.length (PortfolioMetrics.calculatePortfolioReturns
                        weights assetReturns indices) = List.length indices
         /\ forall k index, nth_error indices k = Some index ->
              exists r,
                nth_error (PortfolioMetrics.calculatePortfolioReturns
                             weights assetReturns indices) k = Some r
                /\ (r == if Qeq_bool (Spec.total_weight weights) 0 then 0
                         else Spec.portfolio_return weights assetReturns index)%Q)
  /\ (forall weights assetReturns indices,
         (Spec.total_weight weights == 0)%Q
         \/ Spec.no_active_asset weights assetReturns ->
         PortfolioMetrics.calculatePortfolioReturns weights assetReturns indices
         = map (fun _ => 0%Q) indices).
Proof.
  split; [|split].
  - intros a b i Ha Hb Hi.
    assert (Hnd : NoDup (JS.keys [("A"%string, JS.VNum 60); ("B"%string, JS.VNum 40)])).
    { cbn. repeat constructor; cbn; intuition discriminate. }
    assert (Hk : nth_error (seq 0 12) i = Some i).
    { rewrite nth_error_nth' with (d := 0%nat) by (rewrite length_seq; lia).
      now rewrite seq_nth by lia. }
    destruct (@calculatePortfolioReturns_at _
                [("A"%string, map Some a); ("B"%string, map Some b)]
                (seq 0 12) i i Hnd Hk) as (r & Hr & Hv).
    rewrite (nth_error_nth _ _ 0%Q Hr), Hv.
    change (Qeq_bool (Spec.total_weight
                        [("A"%string, JS.VNum 60); ("B"%string, JS.VNum 40)]) 0)
      with false.
    unfold Spec.portfolio_return, Spec.contributions.
    cbn [flat_map JS.parseFloat_or0 JS.lookup String.eqb Ascii.eqb Bool.eqb].
    change (JS.Qltb 0 60) with true. change (JS.Qltb 0 40) with true.
    cbv iota.
    rewrite !entry_map_Some by lia.
    cbn [app Spec.sumQ fold_right]. field.
  - intros weights assetReturns indices Hnd. split.
    + apply calculatePortfolioReturns_length.
    + intros k index Hk. now apply calculatePortfolioReturns_at.
  - intros. now apply calculatePortfolioReturns_zero.
Qed.

(** ** Objective mapping *)

Section Objective.

Import PortfolioOptimizer.
Local Open Scope Q_scope.

Lemma objective_of_throw (w : Weights) (objective : string) (f : Callback) (e : string) :
  f w = Throws e -> calculateObjectiveFunction w objective f = Spec.penalty objective.
Proof. intros H. unfold calculateObjectiveFunction, Spec.penalty. now rewrite H. Qed.

Lemma objective_of_falsy (w : Weights) (objective : string) (f : Callback) :
  f w = Returns None -> calculateObjectiveFunction w objective f = Spec.penalty objective.
Proof. intros H. unfold calculateObjectiveFunction, Spec.penalty. now rewrite H. Qed.

Lemma or_else_nonzero (x d : Q) : ~ x == 0 -> or_else (Some x) d = x.
Proof.
  intros H. unfold or_else.
  destruct (Qeq_bool x 0) eqn:E; [|reflexivity].
  apply Qeq_bool_iff in E. contradiction.
Qed.

(** A metric that is defined and not zero is mapped by the formula. *)
Lemma objective_of_nonzero_metric (w : Weights) (x : Q) (sh vol so cv : option Q) :
  ~ x == 0 ->
  calculateObjectiveFunction w "sharpe"
    (fun _ => Returns (Some (mkMetricsObject (Some x) vol so cv))) = x
  /\ calculateObjectiveFunction w "risk"
       (fun _ => Returns (Some (mkMetricsObject sh (Some x) so cv))) = - x
  /\ calculateObjectiveFunction w "sortino"
       (fun _ => Returns (Some (mkMetricsObject sh vol (Some x) cv))) = x
  /\ calculateObjectiveFunction w "cvar"
       (fun _ => Returns (Some (mkMetricsObject sh vol so (Some x)))) = - Qabs x.
Proof.
  intros Hx.
  assert (Ha : ~ Qabs x == 0).
  { intros H. apply Hx. revert H. apply Qabs_case; intros; lra. }
  repeat split; cbv - [or_else Qabs Qopp]; now rewrite or_else_nonzero.
Qed.

(** A field that is missing scores the penalty -999. *)
Lemma objective_of_missing_metric (w : Weights) (objective : string) :
  calculateObjectiveFunction w objective
    (fun _ => Returns (Some (mkMetricsObject None None None None))) = - (999).
Proof.
  unfold calculateObjectiveFunction.
  repeat match goal with |- context [if ?b then _ else _] => destruct b end;
    reflexivity.
Qed.

(** C3 (the code departs from the claim).  A metric that is defined and
    equal to 0 is not mapped by the formula: [metric || penalty] takes 0 for
    a missing value, so a Sharpe or Sortino ratio of 0 scores -999 and a
    volatility or CVaR of 0 scores -999 as well, where the formula gives 0. *)
Theorem zero_metric_scores_penalty
    (w : Weights) (sh vol so cv : option Q) :
  calculateObjectiveFunction w "sharpe"
    (fun _ => Returns (Some (mkMetricsObject (Some 0) vol so cv))) = - (999)
  /\ calculateObjectiveFunction w "risk"
       (fun _ => Returns (Some (mkMetricsObject sh (Some 0) so cv))) = - (999)
  /\ calculateObjectiveFunction w "sortino"
       (fun _ => Returns (Some (mkMetricsObject sh vol (Some 0) cv))) = - (999)
  /\ calculateObjectiveFunction w "cvar"
       (fun _ => Returns (Some (mkMetricsObject sh vol so (Some 0)))) = - (999).
Proof. repeat split. Qed.

End Objective.

(** ** Rounding to one decimal *)

(** Division by a constant, as a multiplication [lra] reads. *)
Ltac tenths :=
  unfold JS.parseFixed, Qdiv in *;
  change (/ 10)%Q with (1 # 10)%Q in *;
  change (/ 100)%Q with (1 # 100)%Q in *.

Section Rounding.

Import JS.
Local Open Scope Q_scope.

Lemma Qltb_lt (x y : Q) : Qltb x y = true <-> x < y.
Proof.
  unfold Qltb. rewrite negb_true_iff. split.
  - intros H. apply Qnot_le_lt. intros Hle.
    apply Qle_bool_iff in Hle. congruence.
  - intros H. destruct (Qle_bool y x) eqn:E; [|reflexivity].
    apply Qle_bool_iff in E. exfalso. apply (Qlt_not_le _ _ H E).
Qed.

Lemma Qltb_ge (x y : Q) : Qltb x y = false <-> y <= x.
Proof.
  unfold Qltb. rewrite negb_false_iff. apply Qle_bool_iff.
Qed.

Lemma Qle_bool_compat (x y z : Q) : x == y -> Qle_bool z x = Qle_bool z y.
Proof.
  intros H. destruct (Qle_bool z y) eqn:E.
  - apply Qle_bool_iff in E. apply Qle_bool_iff. now rewrite H.
  - destruct (Qle_bool z x) eqn:E'; [|reflexivity].
    apply Qle_bool_iff in E'. rewrite H in E'. apply Qle_bool_iff in E'. congruence.
Qed.

Lemma Qfloor_half (z : Z) : Qfloor (inject_Z z + (1 # 2)) = z.
Proof.
  pose proof (Qfloor_le (inject_Z z + (1 # 2))) as Hle.
  pose proof (Qlt_floor (inject_Z z + (1 # 2))) as Hlt.
  set (f := Qfloor (inject_Z z + (1 # 2))) in *.
  assert (H1 : (f < z + 1)%Z).
  { rewrite Zlt_Qlt, inject_Z_plus. change (inject_Z 1) with 1. lra. }
  assert (H2 : (z < f + 1)%Z).
  { rewrite Zlt_Qlt. lra. }
  lia.
Qed.

Lemma toFixed1_comp (x y : Q) : x == y -> toFixed1 x = toFixed1 y.
Proof.
  intros H. unfold toFixed1.
  rewrite (Qle_bool_compat 0 H).
  destruct (Qle_bool 0 y).
  - apply Qfloor_comp. now rewrite H.
  - f_equal. apply Qfloor_comp. now rewrite H.
Qed.

Lemma parseFixed_plus (a b : Z) :
  parseFixed a + parseFixed b == parseFixed (a + b).
Proof. unfold parseFixed. rewrite inject_Z_plus. field. Qed.

Lemma parseFixed_le (a b : Z) : (a <= b)%Z <-> parseFixed a <= parseFixed b.
Proof.
  rewrite Zle_Qle. tenths. split; intros H; lra.
Qed.

(** Rounding a number that already has one decimal changes nothing. *)
Lemma toFixed1_parseFixed (z : Z) : toFixed1 (parseFixed z) = z.
Proof.
  unfold toFixed1.
  destruct (Qle_bool 0 (parseFixed z)) eqn:E.
  - rewrite <- (Qfloor_half z) at 2. apply Qfloor_comp.
    unfold parseFixed. field.
  - rewrite <- (Z.opp_involutive z) at 2. f_equal.
    rewrite <- (Qfloor_half (- z)). apply Qfloor_comp.
    unfold parseFixed. rewrite inject_Z_opp. field.
Qed.

(** The rounding of a non-negative number: within half a tenth. *)
Lemma toFixed1_nonneg (x : Q) :
  0 <= x ->
  (0 <= toFixed1 x)%Z
  /\ inject_Z (toFixed1 x) <= x * 10 + (1 # 2)
  /\ x * 10 - (1 # 2) < inject_Z (toFixed1 x).
Proof.
  intros Hx. unfold toFixed1.
  assert (E : Qle_bool 0 x = true) by now apply Qle_bool_iff.
  rewrite E.
  pose proof (Qfloor_le (x * 10 + (1 # 2))) as Hle.
  pose proof (Qlt_floor (x * 10 + (1 # 2))) as Hlt.
  rewrite inject_Z_plus in Hlt. change (inject_Z 1) with 1 in Hlt.
  repeat split; try lra.
  change 0%Z with (Qfloor 0). apply Qfloor_resp_le. lra.
Qed.

End Rounding.

(** ** Sums of weights *)

Section Sums.

Import JS.
Local Open Scope Q_scope.

Lemma fold_left_sum (l : list Q) (acc : Q) :
  fold_left (fun a b => a + b) l acc == acc + Spec.sumQ l.
Proof.
  rewrite (fold_left_Qplus (fun x => x) l acc). now rewrite map_id.
Qed.

Lemma fold_left_map (A B C : Type) (f : A -> B -> A) (g : C -> B)
    (l : list C) (acc : A) :
  fold_left f (map g l) acc = fold_left (fun a c => f a (g c)) l acc.
Proof.
  revert acc. induction l as [|x l IH]; intros acc; cbn; [reflexivity|apply IH].
Qed.

Lemma sumQ_parseFixed (ts : list Z) :
  Spec.sumQ (map parseFixed ts) == parseFixed (Spec.sumZ ts).
Proof.
  induction ts as [|t ts IH]; cbn [map Spec.sumQ Spec.sumZ fold_right].
  - reflexivity.
  - fold (Spec.sumQ (map parseFixed ts)). fold (Spec.sumZ ts).
    rewrite IH. apply parseFixed_plus.
Qed.

Lemma sumQ_nonneg (ws : list Q) :
  Forall (fun w => 0 <= w) ws -> 0 <= Spec.sumQ ws.
Proof.
  unfold Spec.sumQ. induction 1 as [|w ws Hw _ IH]; cbn [fold_right]; lra.
Qed.

Lemma sumQ_member (ws : list Q) (w : Q) :
  Forall (fun w => 0 <= w) ws -> In w ws -> w <= Spec.sumQ ws.
Proof.
  unfold Spec.sumQ. induction 1 as [|x ws Hx Hws IH]; cbn [fold_right In]; [tauto|].
  pose proof (sumQ_nonneg Hws) as Hs. unfold Spec.sumQ in Hs.
  intros [-> | Hin]; [lra|]. specialize (IH Hin). lra.
Qed.

Lemma sumZ_app (l1 l2 : list Z) :
  Spec.sumZ (l1 ++ l2) = (Spec.sumZ l1 + Spec.sumZ l2)%Z.
Proof.
  unfold Spec.sumZ. induction l1 as [|x l1 IH]; cbn [app fold_right]; lia.
Qed.

Lemma sumZ_nonneg (ts : list Z) :
  Forall (fun t => 0 <= t)%Z ts -> (0 <= Spec.sumZ ts)%Z.
Proof.
  unfold Spec.sumZ. induction 1; cbn [fold_right]; lia.
Qed.

Lemma sumZ_bounded (ts : list Z) (m : Z) :
  Forall (fun t => t <= m)%Z ts ->
  (Spec.sumZ ts <= Z.of_nat (List.length ts) * m)%Z.
Proof.
  unfold Spec.sumZ. induction 1; cbn [fold_right List.length]; lia.
Qed.

End Sums.

(** ** The rounded shares of a weight map *)

Section Shares.

Import JS.
Local Open Scope Q_scope.

Variable s : Q.
Hypothesis s_pos : 0 < s.

(** The share of a weight, in tenths of a percent. *)
Let share (w : Q) : Z := toFixed1 (w / s * 100).

Lemma share_bounds (w : Q) :
  0 <= w -> w <= s ->
  (0 <= share w <= 1000)%Z
  /\ inject_Z (share w) <= (w / s * 100) * 10 + (1 # 2).
Proof.
  intros H0 Hs.
  assert (Hq0 : 0 <= w / s) by (apply Qle_shift_div_l; lra).
  assert (Hq1 : w / s <= 1) by (apply Qle_shift_div_r; lra).
  destruct (toFixed1_nonneg (x := w / s * 100)) as (Ht0 & Hup & _); [lra|].
  fold (share w) in Ht0, Hup.
  repeat split; try assumption.
  assert (H : (share w < 1001)%Z).
  { rewrite Zlt_Qlt. change (inject_Z 1001) with 1001. lra. }
  lia.
Qed.

Lemma shares_sum (ws : list Q) :
  Forall (fun w => 0 <= w <= s) ws ->
  inject_Z (Spec.sumZ (map share ws))
  <= Spec.sumQ (map (fun w => w / s * 100) ws) * 10
     + (1 # 2) * inject_Z (Z.of_nat (List.length ws)).
Proof.
  induction 1 as [|w ws [H0 Hs] _ IH].
  - cbn [map Spec.sumZ Spec.sumQ fold_right List.length Z.of_nat].
    change (inject_Z 0) with 0. lra.
  - cbn [map Spec.sumZ Spec.sumQ fold_right List.length].
    fold (Spec.sumZ (map share ws)).
    fold (Spec.sumQ (map (fun w => w / s * 100) ws)).
    rewrite Nat2Z.inj_succ. unfold Z.succ. rewrite !inject_Z_plus.
    change (inject_Z 1) with 1.
    destruct (share_bounds H0 Hs) as (_ & Hup). lra.
Qed.

End Shares.

(** ** Objects: keys, values, update *)

Section ObjectFacts.

Import JS.
Variables A B : Type.

Lemma keys_map_value (g : A -> B) (l : list (string * A)) :
  keys (map (fun '(k, v) => (k, g v)) l) = keys l.
Proof.
  unfold keys. rewrite map_map. apply map_ext. now intros [k v].
Qed.

Lemma values_map_value (g : A -> B) (l : list (string * A)) :
  values (map (fun '(k, v) => (k, g v)) l) = map g (values l).
Proof.
  unfold values. rewrite !map_map. apply map_ext. now intros [k v].
Qed.

Lemma keys_update (key : string) (f : A -> A) (l : list (string * A)) :
  keys (update key f l) = keys l.
Proof.
  induction l as [|[k v] l IH]; cbn; [reflexivity|].
  destruct (String.eqb k key); cbn; [reflexivity|]. f_equal. exact IH.
Qed.

Lemma split_key (l : list (string * A)) (key : string) (v : A) :
  NoDup (keys l) -> In (key, v) l ->
  exists l1 l2, l = l1 ++ (key, v) :: l2 /\ ~ In key (keys l1).
Proof.
  intros Hnd Hin. destruct (in_split _ _ Hin) as (l1 & l2 & ->).
  exists l1, l2. split; [reflexivity|].
  unfold keys in *. rewrite map_app in Hnd. cbn in Hnd.
  apply NoDup_remove_2 in Hnd. intros H. apply Hnd, in_or_app. now left.
Qed.

Lemma update_at (key : string) (f : A -> A) (l1 l2 : list (string * A)) (v : A) :
  ~ In key (keys l1) ->
  update key f (l1 ++ (key, v) :: l2) = l1 ++ (key, f v) :: l2.
Proof.
  induction l1 as [|[k x] l1 IH]; cbn; intros Hnot.
  - now rewrite String.eqb_refl.
  - destruct (String.eqb k key) eqn:E.
    + apply String.eqb_eq in E. subst. tauto.
    + f_equal. apply IH. tauto.
Qed.

End ObjectFacts.

(** ** The normalizer of the optimizer *)

Section LargestWeight.

Import JS PortfolioOptimizer.
Local Open Scope Q_scope.

(** The search for the largest weight returns the first entry no other
    entry exceeds, unless no entry exceeds the starting weight. *)
Lemma largest_fold (l : list (string * Q)) :
  forall acc_a acc_w ra rw,
    fold_left largest_step l (acc_a, acc_w) = (ra, rw) ->
    acc_w <= rw
    /\ (forall a w, In (a, w) l -> w <= rw)
    /\ ((ra = acc_a /\ rw = acc_w) \/ (exists a, ra = Some a /\ In (a, rw) l)).
Proof.
  induction l as [|[a w] l IH]; intros acc_a acc_w ra rw H.
  - cbn in H. injection H as <- <-. repeat split.
    + apply Qle_refl.
    + intros a w [].
    + now left.
  - cbn [fold_left] in H. unfold largest_step at 2 in H.
    destruct (Qltb acc_w w) eqn:E.
    + apply Qltb_lt in E.
      destruct (IH _ _ _ _ H) as (Hle & Hall & Hor).
      repeat split.
      * lra.
      * intros a' w' [Heq | Hin]; [injection Heq as <- <-; lra | eauto].
      * right. destruct Hor as [[-> ->] | (a' & -> & Hin)].
        -- exists a. split; [reflexivity | now left].
        -- exists a'. split; [reflexivity | now right].
    + apply Qltb_ge in E.
      destruct (IH _ _ _ _ H) as (Hle & Hall & Hor).
      repeat split.
      * exact Hle.
      * intros a' w' [Heq | Hin]; [injection Heq as <- <-; lra | eauto].
      * destruct Hor as [Hsame | (a' & -> & Hin)]; [now left|].
        right. exists a'. split; [reflexivity | now right].
Qed.

End LargestWeight.

Section NormalizerArithmetic.

Import JS.
Local Open Scope Q_scope.

Lemma shares_total (s : Q) (ws : list Q) :
  ~ s == 0 ->
  Spec.sumQ (map (fun w => w / s * 100) ws) == Spec.sumQ ws / s * 100.
Proof.
  intros Hs. unfold Spec.sumQ.
  induction ws as [|w ws IH]; cbn [map fold_right].
  - field. exact Hs.
  - rewrite IH. field. exact Hs.
Qed.

Lemma round1_sum_tenths (a b : Z) :
  round1 (parseFixed a + parseFixed b) = parseFixed (a + b).
Proof.
  unfold round1. f_equal.
  etransitivity; [|apply toFixed1_parseFixed].
  apply toFixed1_comp, parseFixed_plus.
Qed.

Lemma parseFixed_abs_zero (d : Z) :
  Qltb 0 (Qabs (parseFixed d)) = false -> d = 0%Z.
Proof.
  intros H. apply Qltb_ge in H. apply Qabs_Qle_condition in H.
  destruct H as [H1 H2].
  assert (H1' : (0 <= d)%Z).
  { rewrite Zle_Qle. change (inject_Z 0) with 0. tenths. lra. }
  assert (H2' : (d <= 0)%Z).
  { rewrite Zle_Qle. change (inject_Z 0) with 0. tenths. lra. }
  lia.
Qed.

Lemma truthy_string_nonempty (a : string) : a <> EmptyString -> truthy_string a = true.
Proof.
  intros H. unfold truthy_string. destruct (String.eqb a EmptyString) eqn:E; [|reflexivity].
  apply String.eqb_eq in E. contradiction.
Qed.

End NormalizerArithmetic.

Section EmbeddedNormalizer.

Import JS PortfolioOptimizer.
Local Open Scope Q_scope.

Variable weights : Weights.
Hypothesis keys_unique : NoDup (keys weights).
Hypothesis names_nonempty : ~ In EmptyString (keys weights).
Hypothesis nonneg : Forall (fun w => 0 <= w) (values weights).
Hypothesis positive : 0 < fold_left (fun a b => a + b) (values weights) 0.
Hypothesis few : (List.length weights <= 45)%nat.

Lemma normalizeWeights_tenths :
  exists ts,
    values (normalizeWeights weights) = map parseFixed ts
    /\ Spec.sumZ ts = 1000%Z
    /\ Forall (fun t => 0 <= t <= 1000)%Z ts.
Proof.
  set (s := fold_left (fun a b => a + b) (values weights) 0) in *.
  set (share := fun w => toFixed1 (w / s * 100)).
  set (tl := map (fun '(a, w) => (a, share w)) weights).
  assert (Hnorm : map (fun '(asset, w) => (asset, round1 (w / s * 100))) weights
                  = map (fun '(a, t) => (a, parseFixed t)) tl).
  { unfold tl. rewrite map_map. apply map_ext. now intros [a w]. }
  assert (Hs : s == Spec.sumQ (values weights)).
  { unfold s. rewrite fold_left_sum. ring. }
  assert (Hws : Forall (fun w => 0 <= w <= s) (values weights)).
  { rewrite Forall_forall in *. intros w Hin. split; [now apply nonneg|].
    rewrite Hs. apply sumQ_member; [|exact Hin]. now apply Forall_forall. }
  assert (Hts : values tl = map share (values weights)).
  { unfold tl. apply values_map_value. }
  assert (Hb0 : Forall (fun t => 0 <= t <= 1000)%Z (values tl)).
  { rewrite Hts. apply Forall_forall. intros t Ht.
    apply in_map_iff in Ht. destruct Ht as (w & <- & Hw).
    rewrite Forall_forall in Hws. destruct (Hws w Hw) as [H0 H1].
    apply (share_bounds positive H0 H1). }
  assert (HT : (2 * Spec.sumZ (values tl) <= 2000 + Z.of_nat (List.length weights))%Z).
  { pose proof (shares_sum positive Hws) as H. fold s in H. fold share in H.
    rewrite shares_total in H by lra.
    rewrite <- Hs in H.
    assert (Hone : s / s * 100 == 100) by (field; lra).
    rewrite Hone in H. unfold values in H at 2. rewrite length_map in H.
    rewrite <- Hts in H.
    rewrite Zle_Qle, inject_Z_mult, inject_Z_plus.
    change (inject_Z 2) with 2. change (inject_Z 2000) with 2000. lra. }
  assert (Hne : tl <> []).
  { intros E. unfold tl in E. apply map_eq_nil in E.
    unfold s in positive. rewrite E in positive. cbn in positive. lra. }
  assert (Hktl : keys tl = keys weights) by (unfold tl; apply keys_map_value).
  assert (Hlen : List.length (values tl) = List.length weights).
  { unfold values, tl. now rewrite !length_map. }
  unfold normalizeWeights. cbv zeta. fold s.
  assert (Hpos : Qltb 0 s = true) by now apply Qltb_lt.
  rewrite Hpos, Hnorm.
  set (normalized := map (fun '(a, t) => (a, parseFixed t)) tl).
  assert (Hval : values normalized = map parseFixed (values tl)).
  { unfold normalized. apply values_map_value. }
  assert (Hdiff : round1 (100 - fold_left (fun a b => a + b) (values normalized) 0)
                  = parseFixed (1000 - Spec.sumZ (values tl))).
  { unfold round1. f_equal.
    etransitivity; [|apply toFixed1_parseFixed].
    apply toFixed1_comp.
    rewrite fold_left_sum, Hval, sumQ_parseFixed.
    unfold Z.sub. tenths. rewrite inject_Z_plus, inject_Z_opp.
    change (inject_Z 1000) with 1000. lra. }
  rewrite Hdiff.
  set (T := Spec.sumZ (values tl)) in *.
  assert (Hndtl : NoDup (keys tl)) by now rewrite Hktl.
  clearbody tl. clear Hnorm Hts.
  destruct (Qltb 0 (Qabs (parseFixed (1000 - T)))) eqn:Ed.
  - destruct (fold_left largest_step normalized (None, - (1))) as [ra rw] eqn:El.
    destruct (largest_fold _ _ _ El) as (Hge & Hall & Hor).
    destruct Hor as [[-> ->] | (a & -> & Hin)].
    + exfalso. destruct tl as [|[a0 t0] tl']; [congruence|].
      specialize (Hall a0 (parseFixed t0) (or_introl eq_refl)).
      inversion Hb0 as [|? ? Ht0 _]; subst.
      assert (H0 : (0 <= t0)%Z) by lia.
      rewrite Zle_Qle in H0. change (inject_Z 0) with 0 in H0. tenths. lra.
    + unfold normalized in Hin. apply in_map_iff in Hin.
      destruct Hin as ([a' tm] & Heq & Hin). injection Heq as -> <-.
      assert (Hka : In a (keys tl)).
      { unfold keys. change a with (fst (a, tm)). now apply in_map. }
      rewrite truthy_string_nonempty
        by (intros ->; apply names_nonempty; now rewrite <- Hktl).
      destruct (split_key _ _ _ Hndtl Hin) as (l1 & l2 & -> & Hnot).
      unfold normalized. rewrite map_app. cbn [map].
      rewrite update_at by now rewrite keys_map_value.
      exists (values l1 ++ (tm + (1000 - T))%Z :: values l2).
      assert (HTsplit : T = (Spec.sumZ (values l1) + (tm + Spec.sumZ (values l2)))%Z).
      { unfold T, values. rewrite map_app, sumZ_app. reflexivity. }
      unfold values in Hb0. rewrite map_app in Hb0. cbn [map snd] in Hb0.
      apply Forall_app in Hb0. destruct Hb0 as [Hb1 Hb2].
      inversion Hb2 as [|? ? Htm Hb2']; subst.
      split; [|split].
      * unfold values. rewrite !map_app. cbn [map snd].
        rewrite round1_sum_tenths. rewrite !map_map.
        f_equal; [apply map_ext; now intros [k v]|].
        f_equal. apply map_ext; now intros [k v].
      * rewrite sumZ_app. cbn [Spec.sumZ fold_right]. fold (Spec.sumZ (values l2)). lia.
      * apply Forall_app. split; [exact Hb1|]. constructor; [|exact Hb2'].
        assert (H1 : (0 <= Spec.sumZ (values l1))%Z).
        { apply sumZ_nonneg. eapply Forall_impl; [|exact Hb1]. cbv beta. lia. }
        assert (H2 : (0 <= Spec.sumZ (values l2))%Z).
        { apply sumZ_nonneg. eapply Forall_impl; [|exact Hb2']. cbv beta. lia. }
        assert (Hmax : Forall (fun t => t <= tm)%Z (values (l1 ++ (a, tm) :: l2))).
        { apply Forall_forall. intros t Ht. unfold values in Ht.
          apply in_map_iff in Ht. destruct Ht as ([k t'] & <- & Hkt).
          apply parseFixed_le. apply (Hall k).
          unfold normalized. apply in_map_iff. exists (k, t'). now split. }
        apply sumZ_bounded in Hmax. fold T in Hmax. rewrite Hlen in Hmax.
        split; [nia | lia].
  - apply parseFixed_abs_zero in Ed.
    exists (values tl). split; [exact Hval|]. split; [fold T; lia | exact Hb0].
Qed.

End EmbeddedNormalizer.

(** ** Valid allocations and the two normalizers *)

Section Validity.

Import JS PortfolioOptimizer.
Local Open Scope Q_scope.

Lemma isValidWeightAllocation_spec (weights : Weights) :
  isValidWeightAllocation weights = true <->
  Forall (fun w => 0 <= w <= 100) (values weights)
  /\ Qabs (fold_left (fun a b => a + b) (values weights) 0 - 100) < 1 # 100.
Proof.
  unfold isValidWeightAllocation. cbv zeta.
  rewrite !andb_true_iff, !forallb_forall, Qltb_lt, Forall_forall.
  split.
  - intros [[H0 H1] Hs]. split; [|exact Hs].
    intros w Hw. split; apply Qle_bool_iff; auto.
  - intros [H Hs]. repeat split; try exact Hs.
    + intros w Hw. apply Qle_bool_iff. now apply H.
    + intros w Hw. apply Qle_bool_iff. now apply H.
Qed.

(** A map whose values are tenths between 0 and 1000 adding up to 1000 is a
    valid allocation, and its weights add up to exactly 100. *)
Lemma valid_of_tenths (weights : Weights) (ts : list Z) :
  values weights = map parseFixed ts ->
  Spec.sumZ ts = 1000%Z ->
  Forall (fun t => 0 <= t <= 1000)%Z ts ->
  Forall (fun w => 0 <= w <= 100) (values weights)
  /\ fold_left (fun a b => a + b) (values weights) 0 == 100.
Proof.
  intros Hv Hsum Hb. rewrite Hv. split.
  - apply Forall_forall. intros w Hw. apply in_map_iff in Hw.
    destruct Hw as (t & <- & Ht). rewrite Forall_forall in Hb.
    destruct (Hb t Ht) as [H0 H1].
    rewrite Zle_Qle in H0, H1.
    change (inject_Z 0) with 0 in H0. change (inject_Z 1000) with 1000 in H1.
    tenths. lra.
  - rewrite fold_left_sum, sumQ_parseFixed, Hsum. reflexivity.
Qed.

Lemma valid_of_exact (weights : Weights) :
  Forall (fun w => 0 <= w <= 100) (values weights) ->
  fold_left (fun a b => a + b) (values weights) 0 == 100 ->
  isValidWeightAllocation weights = true.
Proof.
  intros Hb Hs. apply isValidWeightAllocation_spec. split; [exact Hb|].
  rewrite Hs. reflexivity.
Qed.

Lemma normalizeWeights_keys (weights : Weights) :
  keys (normalizeWeights weights) = keys weights.
Proof.
  unfold normalizeWeights. cbv zeta.
  destruct (Qltb 0 _).
  - destruct (Qltb 0 (Qabs _)); [|apply keys_map_value].
    destruct (fold_left largest_step _ _) as [[a|] ?]; [|apply keys_map_value].
    destruct (truthy_string a); [|apply keys_map_value].
    rewrite keys_update. apply keys_map_value.
  - apply keys_map_value.
Qed.

End Validity.

Section Agreement.

Import JS.
Local Open Scope Q_scope.

Lemma fold_left_ext (A B : Type) (f g : A -> B -> A) (l : list B) (acc : A) :
  (forall a b, f a b = g a b) -> fold_left f l acc = fold_left g l acc.
Proof.
  intros H. revert acc. induction l as [|x l IH]; intros acc; cbn; [reflexivity|].
  now rewrite H, IH.
Qed.

Lemma map_update (A B : Type) (g : A -> B) (F : A -> A) (f : B -> B)
    (key : string) (l : list (string * A)) :
  (forall v, g (F v) = f (g v)) ->
  map (fun '(k, v) => (k, g v)) (update key F l)
  = update key f (map (fun '(k, v) => (k, g v)) l).
Proof.
  intros H. induction l as [|[k v] l IH]; cbn; [reflexivity|].
  destruct (String.eqb k key); cbn; [now rewrite H|]. now rewrite IH.
Qed.

(** On a positive sum the two normalizers compute the same numbers: the
    standalone one leaves them as one-decimal strings, except for the
    adjusted weight. *)
Lemma normalizers_agree_positive (weights : list (string * jsval)) :
  Qltb 0 (fold_left (fun a b => a + parseFloat_or0 b) (values weights) 0) = true ->
  Spec.parsed (PortfolioMetrics.normalizeWeights weights)
  = PortfolioOptimizer.normalizeWeights (Spec.parsed weights).
Proof.
  intros Hpos.
  unfold PortfolioMetrics.normalizeWeights, PortfolioOptimizer.normalizeWeights.
  cbv zeta.
  assert (Hsum : fold_left (fun a b => a + b) (values (Spec.parsed weights)) 0
                 = fold_left (fun a b => a + parseFloat_or0 b) (values weights) 0).
  { unfold Spec.parsed. rewrite values_map_value. apply fold_left_map. }
  rewrite Hsum, Hpos.
  set (s := fold_left (fun a b => a + parseFloat_or0 b) (values weights) 0).
  set (rounded := map (fun '(asset, v) => (asset, toFixed1 (parseFloat_or0 v / s * 100)))
                      weights).
  assert (Hnorm : map (fun '(asset, w) => (asset, round1 (w / s * 100))) (Spec.parsed weights)
                  = map (fun '(a, t) => (a, parseFixed t)) rounded).
  { unfold Spec.parsed, rounded. rewrite !map_map. apply map_ext. now intros [a v]. }
  rewrite Hnorm.
  assert (Hstr : Spec.parsed (map (fun '(asset, t) => (asset, VStr1 t)) rounded)
                 = map (fun '(a, t) => (a, parseFixed t)) rounded).
  { unfold Spec.parsed. rewrite map_map. apply map_ext. now intros [a t]. }
  assert (Hrs : fold_left (fun a b => a + b)
                  (values (map (fun '(a, t) => (a, parseFixed t)) rounded)) 0
                = fold_left (fun a t => a + parseFixed t) (values rounded) 0).
  { rewrite values_map_value. apply fold_left_map. }
  rewrite Hrs.
  set (difference := round1 (100 - fold_left (fun a t => a + parseFixed t) (values rounded) 0)).
  destruct (Qltb 0 (Qabs difference)); [|exact Hstr].
  assert (Hl : fold_left PortfolioOptimizer.largest_step
                 (map (fun '(a, t) => (a, parseFixed t)) rounded) (None, - (1))
               = fold_left PortfolioMetrics.largest_step rounded (None, - (1))).
  { rewrite fold_left_map. apply fold_left_ext. now intros [la lw] [a t]. }
  rewrite Hl.
  destruct (fold_left PortfolioMetrics.largest_step rounded (None, - (1)))
    as [[a|] lw]; [|exact Hstr].
  destruct (truthy_string a); [|exact Hstr].
  rewrite <- Hstr. unfold Spec.parsed. apply map_update. reflexivity.
Qed.

End Agreement.

(** ** The search loop *)

Section SearchFacts.

Import JS PortfolioOptimizer.
Local Open Scope Q_scope.

Variable this : Optimizer.
Variable objective : string.
Variable calculateMetrics : Callback.
Variable turnoverLimitPercent : Q.

Lemma isMetricImprovement_lt (newMetric currentBest : Q) :
  isMetricImprovement newMetric currentBest objective = true ->
  currentBest < newMetric.
Proof.
  unfold isMetricImprovement.
  destruct (_ || _); apply Qltb_lt.
Qed.

Lemma scan_decrease_moved (st : State) (asset : string) (assetsToDecrease : list string)
    (st' : State) :
  scan_decrease this objective calculateMetrics turnoverLimitPercent
                st asset assetsToDecrease = Some st' ->
  Spec.moved objective calculateMetrics st st'.
Proof.
  induction assetsToDecrease as [|decreaseAsset rest IH]; cbn [scan_decrease];
    [discriminate|].
  destruct (_ && _); [|exact IH].
  destruct (isValidWeightAllocation _) eqn:Ev; [|exact IH].
  destruct (isMetricImprovement _ _ _) eqn:Ei; [|exact IH].
  intros [= <-]. unfold Spec.moved. cbn [bestWeights currentWeights bestMetric].
  repeat split.
  - exact Ev.
  - now rewrite !keys_update.
  - now apply isMetricImprovement_lt.
Qed.

Lemma scan_increase_moved (st : State) (assetsToIncrease assetsToDecrease : list string)
    (st' : State) :
  scan_increase this objective calculateMetrics turnoverLimitPercent
                st assetsToIncrease assetsToDecrease = Some st' ->
  Spec.moved objective calculateMetrics st st'.
Proof.
  induction assetsToIncrease as [|asset rest IH]; cbn [scan_increase];
    [discriminate|].
  destruct (_ && _); [|exact IH].
  destruct (scan_decrease _ _ _ _ _ _ _) eqn:Ed; [|exact IH].
  intros [= <-]. eapply scan_decrease_moved. exact Ed.
Qed.

(** A pass either leaves weights and metric as they were, or applies a
    move. *)
Lemma iterate_cases (st : State) :
  (iterate this objective calculateMetrics turnoverLimitPercent st = Break st)
  \/ (exists st',
         iterate this objective calculateMetrics turnoverLimitPercent st = Next st'
         /\ iteration st' = (iteration st + 1)%Z
         /\ ((currentWeights st' = currentWeights st
              /\ bestWeights st' = bestWeights st
              /\ bestMetric st' = bestMetric st)
             \/ Spec.moved objective calculateMetrics st st')).
Proof.
  unfold iterate. cbv zeta.
  destruct (keys (calculateGradients _ _ _ _)); [now left|].
  destruct (filter _ _) as [|i assetsToIncrease].
  { right. eexists. split; [reflexivity|]. cbn. auto. }
  destruct (filter _ _) as [|d assetsToDecrease].
  { right. eexists. split; [reflexivity|]. cbn. auto. }
  destruct (negb _ || negb _); [now left|].
  destruct (scan_increase _ _ _ _ _ _ _) as [st'|] eqn:Es.
  - right. eexists. split; [reflexivity|]. cbn. split; [reflexivity|]. right.
    apply scan_increase_moved in Es. exact Es.
  - right. eexists. split; [reflexivity|]. cbn. auto.
Qed.

Section Invariant.

Variable keys0 : list string.
Variable w0 : Weights.
Variable m0 : Q.

Lemma moved_invariant (st st' : State) :
  Spec.search_invariant objective calculateMetrics keys0 w0 m0 st -> Spec.moved objective calculateMetrics st st' -> Spec.search_invariant objective calculateMetrics keys0 w0 m0 st'.
Proof.
  intros (Hc & Hb & Hw & Hm & He) (Hv & Hcb & Hk & Hlt & He').
  unfold Spec.search_invariant. rewrite Hcb, Hk, Hc.
  repeat split; auto. lra.
Qed.

Lemma search_keeps_invariant (maxIterations : Z) (passes : nat) :
  forall st,
    Spec.search_invariant objective calculateMetrics keys0 w0 m0 st ->
    Spec.search_invariant objective calculateMetrics keys0 w0 m0
      (search this objective calculateMetrics turnoverLimitPercent
              maxIterations passes st).
Proof.
  induction passes as [|passes IH]; intros st Hinv; cbn [search]; [exact Hinv|].
  destruct (loop_condition _ _ _); [|exact Hinv].
  destruct (iterate_cases st) as [-> | (st' & -> & _ & Hst')]; [exact Hinv|].
  apply IH. destruct Hst' as [(Hc & Hb & Hm) | Hmoved].
  - destruct Hinv as (H1 & H2 & H3 & H4 & H5).
    unfold Spec.search_invariant. rewrite Hc, Hb, Hm. auto.
  - eapply moved_invariant; eassumption.
Qed.

End Invariant.

(** The bounded recursion computes the [while] loop: the passes it is given
    are enough. *)
Lemma search_while_loop (maxIterations : Z) (passes : nat) :
  forall st,
    (maxIterations - iteration st <= Z.of_nat passes)%Z ->
    while_loop this objective calculateMetrics turnoverLimitPercent maxIterations st
      (search this objective calculateMetrics turnoverLimitPercent
              maxIterations passes st).
Proof.
  induction passes as [|passes IH]; intros st Hfuel; cbn [search].
  - apply loop_exit. unfold loop_condition.
    replace (iteration st <? maxIterations)%Z with false; [reflexivity|].
    symmetry. apply Z.ltb_ge. lia.
  - destruct (loop_condition _ _ _) eqn:Ec; [|now apply loop_exit].
    destruct (iterate_cases st) as [Hb | (st' & Hn & Hit & _)].
    + rewrite Hb. now apply loop_break.
    + rewrite Hn. eapply loop_next; [exact Ec | exact Hn |].
      apply IH. lia.
Qed.

End SearchFacts.

(** ** The optimizer *)

Section OptimizerFacts.

Import JS PortfolioOptimizer.
Local Open Scope Q_scope.

Variable this : Optimizer.
Variable weights : list (string * jsval).
Variable objective : string.
Variable calculateMetrics : Callback.
Variable turnoverLimit : option Q.

(** On a weight map the optimizer returns the normalized best weights of
    the state its loop is left in. *)
Lemma gradientDescentOptimization_result :
  let m0 := calculateObjectiveFunction (Spec.parsed weights) objective calculateMetrics in
  let limit := match turnoverLimit with Some t => t | None => 1 end in
  let maxIterations := Qfloor (limit / stepSize this) in
  exists st,
    gradientDescentOptimization this (Some weights) objective calculateMetrics
                                turnoverLimit
    = Success (normalizeWeights (bestWeights st)) m0 (bestMetric st)
              (iteration st) (bestMetric st - m0)
    /\ Spec.search_invariant objective calculateMetrics
         (keys weights) (Spec.parsed weights) m0 st
    /\ while_loop this objective calculateMetrics limit maxIterations
         (mkState (Spec.parsed weights) m0 (Spec.parsed weights)
                  (map (fun asset => (asset, 0)) (keys weights)) 0 0)
         st.
Proof.
  cbv zeta.
  unfold gradientDescentOptimization, try_gradientDescentOptimization. cbv zeta.
  fold (Spec.parsed weights).
  eexists. split; [reflexivity|]. split.
  - apply search_keeps_invariant. unfold Spec.search_invariant.
    cbn [currentWeights bestWeights bestMetric].
    unfold Spec.parsed. rewrite keys_map_value.
    repeat split; auto. apply Qle_refl.
  - apply search_while_loop. cbn [iteration]. lia.
Qed.

End OptimizerFacts.

Section OptimizerValidity.

Import JS PortfolioOptimizer.
Local Open Scope Q_scope.

Lemma parsed_sum (weights : list (string * jsval)) :
  fold_left (fun a b => a + b) (values (Spec.parsed weights)) 0
  = fold_left (fun a b => a + parseFloat_or0 b) (values weights) 0.
Proof.
  unfold Spec.parsed. rewrite values_map_value. apply fold_left_map.
Qed.

Lemma valid_positive (w : Weights) :
  isValidWeightAllocation w = true ->
  Forall (fun x => 0 <= x) (values w)
  /\ 0 < fold_left (fun a b => a + b) (values w) 0.
Proof.
  intros H. apply isValidWeightAllocation_spec in H. destruct H as [Hb Hs].
  split.
  - eapply Forall_impl; [|exact Hb]. cbv beta. intros x Hx. apply Hx.
  - apply Qabs_Qlt_condition in Hs. lra.
Qed.

Lemma keys_length (A : Type) (l : list (string * A)) :
  List.length (keys l) = List.length l.
Proof. unfold keys. apply length_map. Qed.

(** The normalized weights of a map with distinct non-empty names, no
    negative weight, a positive sum and at most 45 assets are a valid
    allocation that adds up to exactly 100. *)
Lemma normalizeWeights_valid (w : Weights) :
  NoDup (keys w) -> ~ In EmptyString (keys w) ->
  Forall (fun x => 0 <= x) (values w) ->
  0 < fold_left (fun a b => a + b) (values w) 0 ->
  (List.length w <= 45)%nat ->
  isValidWeightAllocation (normalizeWeights w) = true
  /\ fold_left (fun a b => a + b) (values (normalizeWeights w)) 0 == 100.
Proof.
  intros Hnd Hne H0 Hpos Hlen.
  destruct (@normalizeWeights_tenths w Hnd Hne H0 Hpos Hlen) as (ts & Hv & Hsum & Hb).
  destruct (@valid_of_tenths _ ts Hv Hsum Hb) as [Hbounds Hexact].
  split; [now apply valid_of_exact | exact Hexact].
Qed.

End OptimizerValidity.

(** C1 (amended).  On a weight map with distinct non-empty asset names, no
    negative weight, a positive sum and at most 45 assets, the optimizer
    returns with [success = true] and the returned weights are a valid
    allocation: every weight in [0, 100], the sum within 0.01 of 100 (it is
    exactly 100). *)
Theorem optimizer_returns_valid_weights
    (options : PortfolioOptimizer.Options)
    (weights : list (string * JS.jsval)) (objective : string)
    (calculateMetrics : PortfolioOptimizer.Callback) (turnoverLimit : option Q) :
  NoDup (JS.keys weights) ->
  ~ In EmptyString (JS.keys weights) ->
  Forall (fun v => 0 <= JS.parseFloat_or0 v)%Q (JS.values weights) ->
  (0 < fold_left (fun a b => a + JS.parseFloat_or0 b) (JS.values weights) 0)%Q ->
  (List.length weights <= 45)%nat ->
  exists finalWeights initialMetric finalMetric iterations improvement,
    PortfolioOptimizer.gradientDescentOptimization
      (PortfolioOptimizer.constructor options) (Some weights) objective
      calculateMetrics turnoverLimit
    = PortfolioOptimizer.Success finalWeights initialMetric finalMetric
                                 iterations improvement
    /\ PortfolioOptimizer.isValidWeightAllocation finalWeights = true
    /\ (fold_left (fun a b => a + b) (JS.values finalWeights) 0 == 100)%Q.
Proof.
  intros Hnd Hne H0 Hpos Hlen.
  destruct (gradientDescentOptimization_result
              (PortfolioOptimizer.constructor options) weights objective
              calculateMetrics turnoverLimit)
    as (st & Hres & (Hkc & Hkb & Hbest & _ & _) & _).
  do 5 eexists. split; [exact Hres|].
  apply normalizeWeights_valid.
  - now rewrite Hkb.
  - now rewrite Hkb.
  - destruct Hbest as [-> | Hvalid].
    + unfold Spec.parsed. rewrite values_map_value.
      apply Forall_forall. intros x Hx. apply in_map_iff in Hx.
      destruct Hx as (v & <- & Hv). rewrite Forall_forall in H0. now apply H0.
    + now apply valid_positive.
  - destruct Hbest as [-> | Hvalid].
    + now rewrite parsed_sum.
    + now apply valid_positive.
  - rewrite <- (keys_length (PortfolioOptimizer.bestWeights st)), Hkb, keys_length.
    exact Hlen.
Qed.

(** An instance: the weights 50 and "50.0" under the default options, with
    the weight of A as the Sharpe ratio. *)
Lemma optimizer_returns_valid_weights_witness :
  exists finalWeights initialMetric finalMetric iterations improvement,
    PortfolioOptimizer.gradientDescentOptimization
      (PortfolioOptimizer.constructor
         (PortfolioOptimizer.mkOptions None None None None))
      (Some [("A"%string, JS.VNum 50); ("B"%string, JS.VStr1 500)]) "sharpe"
      (fun w => PortfolioOptimizer.Returns
                  (Some (PortfolioOptimizer.mkMetricsObject
                           (Some (PortfolioOptimizer.get w "A")) None None None)))
      None
    = PortfolioOptimizer.Success finalWeights initialMetric finalMetric
                                 iterations improvement
    /\ PortfolioOptimizer.isValidWeightAllocation finalWeights = true
    /\ (fold_left (fun a b => a + b) (JS.values finalWeights) 0 == 100)%Q.
Proof.
  apply optimizer_returns_valid_weights.
  - cbn. repeat constructor; cbn; intuition discriminate.
  - cbn. intuition discriminate.
  - repeat constructor; cbn; discriminate.
  - vm_compute. reflexivity.
  - cbn. lia.
Defined.

(** C1 (as stated, refuted).  From the weights 150 and -50 the optimizer
    returns 150 and -50.  From 80 assets of weight 1.25 each, a valid
    allocation, it returns 1.3 for each but the first, which takes the
    remainder and becomes -2.7.  From three assets of weight 0 it returns
    33.3 for each, which add up to 99.9. *)
Lemma optimizer_invalid_weights_counterexample :
  let optimizer := PortfolioOptimizer.constructor
                     (PortfolioOptimizer.mkOptions None None None None) in
  let callback : PortfolioOptimizer.Callback :=
    fun _ => PortfolioOptimizer.Returns
               (Some (PortfolioOptimizer.mkMetricsObject (Some 1%Q) None None None)) in
  let returned weights :=
    match PortfolioOptimizer.gradientDescentOptimization
            optimizer (Some weights) "sharpe" callback None with
    | PortfolioOptimizer.Success finalWeights _ _ _ _ => Some finalWeights
    | PortfolioOptimizer.Failure _ => None
    end in
  (returned [("A"%string, JS.VNum 150); ("B"%string, JS.VNum (-50))]
   = Some [("A"%string, JS.parseFixed 1500); ("B"%string, JS.parseFixed (-500))]
   /\ PortfolioOptimizer.isValidWeightAllocation
        [("A"%string, JS.parseFixed 1500); ("B"%string, JS.parseFixed (-500))]
      = false)
  /\ (PortfolioOptimizer.isValidWeightAllocation
        (Spec.parsed (Spec.equal_weights 80 (5 # 4))) = true
      /\ exists finalWeights,
           returned (Spec.equal_weights 80 (5 # 4))
           = Some (("A("%string, JS.parseFixed (-27)) :: finalWeights)
           /\ PortfolioOptimizer.isValidWeightAllocation
                (("A("%string, JS.parseFixed (-27)) :: finalWeights) = false)
  /\ (returned [("A"%string, JS.VNum 0); ("B"%string, JS.VNum 0);
                ("C"%string, JS.VNum 0)]
      = Some [("A"%string, JS.parseFixed 333); ("B"%string, JS.parseFixed 333);
              ("C"%string, JS.parseFixed 333)]
      /\ PortfolioOptimizer.isValidWeightAllocation
           [("A"%string, JS.parseFixed 333); ("B"%string, JS.parseFixed 333);
            ("C"%string, JS.parseFixed 333)] = false).
Proof.
  cbv zeta. split; [|split].
  - split; vm_compute; reflexivity.
  - split; [vm_compute; reflexivity|].
    eexists. split; vm_compute; reflexivity.
  - split; vm_compute; reflexivity.
Qed.

(** ** The standalone normalizer *)

(** C5 (amended).  For a weight map with distinct non-empty asset names, no
    negative weight, a positive sum and at most 45 assets, the numbers the
    normalizer writes add up to exactly 100 (so within 0.05 of 100) and each
    lies in [0, 100]. *)
Theorem normalizeWeights_post_normalization (weights : list (string * JS.jsval)) :
  NoDup (JS.keys weights) ->
  ~ In EmptyString (JS.keys weights) ->
  Forall (fun v => 0 <= JS.parseFloat_or0 v)%Q (JS.values weights) ->
  (0 < fold_left (fun a b => a + JS.parseFloat_or0 b) (JS.values weights) 0)%Q ->
  (List.length weights <= 45)%nat ->
  let output := JS.values (Spec.parsed (PortfolioMetrics.normalizeWeights weights)) in
  Spec.post_normalization output
  /\ (fold_left (fun a b => a + b) output 0 == 100)%Q.
Proof.
  intros Hnd Hne H0 Hpos Hlen output. subst output.
  rewrite normalizers_agree_positive by now apply Qltb_lt.
  assert (Hk : JS.keys (Spec.parsed weights) = JS.keys weights).
  { unfold Spec.parsed. apply keys_map_value. }
  destruct (@normalizeWeights_tenths (Spec.parsed weights)) as (ts & Hv & Hsum & Hb).
  - now rewrite Hk.
  - now rewrite Hk.
  - unfold Spec.parsed. rewrite values_map_value.
    apply Forall_forall. intros x Hx. apply in_map_iff in Hx.
    destruct Hx as (v & <- & Hv). rewrite Forall_forall in H0. now apply H0.
  - now rewrite parsed_sum.
  - unfold Spec.parsed. now rewrite length_map.
  - destruct (valid_of_tenths _ Hv Hsum Hb) as [Hbounds Hexact].
    split; [|exact Hexact]. split; [exact Hbounds|].
    rewrite Hexact. vm_compute. discriminate.
Qed.

(** An instance: three assets of weight 1 each come back as 33.4, 33.3 and
    33.3. *)
Lemma normalizeWeights_post_normalization_witness :
  let output :=
    JS.values (Spec.parsed (PortfolioMetrics.normalizeWeights
                              [("A"%string, JS.VNum 1); ("B"%string, JS.VNum 1);
                               ("C"%string, JS.VNum 1)])) in
  Spec.post_normalization output
  /\ (fold_left (fun a b => a + b) output 0 == 100)%Q.
Proof.
  apply normalizeWeights_post_normalization.
  - cbn. repeat constructor; cbn; intuition discriminate.
  - cbn. intuition discriminate.
  - repeat constructor; cbn; discriminate.
  - vm_compute. reflexivity.
  - cbn. lia.
Defined.

(** C5 (as stated, refuted).  The weights 150 and -50 are written back as
    150.0 and -50.0; 80 assets of weight 1 are each rounded up to 1.3 and the
    first one then takes the remainder -4.0 and becomes -2.7. *)
Lemma normalizeWeights_out_of_bounds_counterexample :
  ~ Spec.post_normalization
      (JS.values (Spec.parsed (PortfolioMetrics.normalizeWeights
                                 [("A"%string, JS.VNum 150);
                                  ("B"%string, JS.VNum (-50))])))
  /\ ~ Spec.post_normalization
         (JS.values (Spec.parsed (PortfolioMetrics.normalizeWeights
                                    (Spec.equal_weights 80 1))))
  /\ hd_error (PortfolioMetrics.normalizeWeights (Spec.equal_weights 80 1))
     = Some ("A("%string, JS.VNum (JS.parseFixed (-27))).
Proof.
  split; [|split].
  - intros [Hb _]. apply Forall_inv in Hb. destruct Hb as [_ Hb].
    apply Qle_bool_iff in Hb. vm_compute in Hb. discriminate.
  - intros [Hb _].
    assert (Hhd : exists rest,
               JS.values (Spec.parsed (PortfolioMetrics.normalizeWeights
                                         (Spec.equal_weights 80 1)))
               = JS.parseFixed (-27) :: rest)
      by (eexists; vm_compute; reflexivity).
    destruct Hhd as [rest Hhd]. rewrite Hhd in Hb.
    apply Forall_inv in Hb. destruct Hb as [Hb _]. clear - Hb.
    apply Qle_bool_iff in Hb. vm_compute in Hb. discriminate.
  - vm_compute. reflexivity.
Qed.

(** On a sum that is not positive the standalone normalizer returns the map
    as it is, and the normalizer of the optimizer gives every asset the same
    rounded share. *)
Lemma normalizers_on_nonpositive_sum (weights : list (string * JS.jsval)) :
  JS.Qltb 0 (fold_left (fun a b => a + JS.parseFloat_or0 b)%Q (JS.values weights) 0%Q)
  = false ->
  PortfolioMetrics.normalizeWeights weights = weights
  /\ PortfolioOptimizer.normalizeWeights (Spec.parsed weights)
     = map (fun '(asset, _) =>
              (asset, JS.round1 (100 / inject_Z (Z.of_nat (List.length weights)))%Q))
           (Spec.parsed weights).
Proof.
  intros H. split.
  - unfold PortfolioMetrics.normalizeWeights. cbv zeta. now rewrite H.
  - unfold PortfolioOptimizer.normalizeWeights. cbv zeta.
    rewrite parsed_sum, H, keys_length.
    replace (List.length (Spec.parsed weights)) with (List.length weights)
      by (unfold Spec.parsed; now rewrite length_map).
    reflexivity.
Qed.

(** C4 (the code departs from the claim).  On the weights 0 and 0 the
    standalone normalizer returns the map as it is, where the normalizer of
    the optimizer returns 50 and 50; and on 60 and 40 the standalone one
    returns the strings "60.0" and "40.0" where the other returns numbers. *)
Theorem normalizers_differ_on_zero_sum :
  let zero := [("A"%string, JS.VNum 0); ("B"%string, JS.VNum 0)] in
  let sixty := [("A"%string, JS.VNum 60); ("B"%string, JS.VNum 40)] in
  PortfolioMetrics.normalizeWeights zero = zero
  /\ PortfolioOptimizer.normalizeWeights (Spec.parsed zero)
     = [("A"%string, JS.parseFixed 500); ("B"%string, JS.parseFixed 500)]
  /\ PortfolioMetrics.normalizeWeights sixty
     = [("A"%string, JS.VStr1 600); ("B"%string, JS.VStr1 400)]
  /\ PortfolioOptimizer.normalizeWeights (Spec.parsed sixty)
     = [("A"%string, JS.parseFixed 600); ("B"%string, JS.parseFixed 400)].
Proof.
  cbv zeta. repeat split; vm_compute; reflexivity.
Qed.

(** ** Faults of the callback, and chained runs *)

Section Runs.

Import JS PortfolioOptimizer.
Local Open Scope Q_scope.

Lemma parsed_as_input (w : Weights) : Spec.parsed (Spec.as_input w) = w.
Proof.
  unfold Spec.parsed, Spec.as_input. rewrite map_map.
  rewrite <- (map_id w) at 2. apply map_ext. now intros [a x].
Qed.

End Runs.

(** C2 (amended).  A callback that throws is caught inside the objective
    function, which scores the candidate with the signed penalty (999 for
    'risk', -999 otherwise); on a weight map the optimizer then returns with
    [success = true], with the penalty as its initial metric when the first
    evaluation throws and as both metrics when every evaluation throws.  The
    failure result of the outer handler is what a missing weight map gives. *)
Theorem callback_fault_is_scored_not_reported
    (options : PortfolioOptimizer.Options)
    (weights : list (string * JS.jsval)) (objective : string)
    (calculateMetrics : PortfolioOptimizer.Callback) (turnoverLimit : option Q) :
  let run := PortfolioOptimizer.gradientDescentOptimization
               (PortfolioOptimizer.constructor options) in
  (forall w error,
      calculateMetrics w = PortfolioOptimizer.Throws error ->
      PortfolioOptimizer.calculateObjectiveFunction w objective calculateMetrics
      = Spec.penalty objective)
  /\ PortfolioOptimizer.success
       (run (Some weights) objective calculateMetrics turnoverLimit) = true
  /\ (forall error,
         calculateMetrics (Spec.parsed weights) = PortfolioOptimizer.Throws error ->
         exists finalWeights finalMetric iterations improvement,
           run (Some weights) objective calculateMetrics turnoverLimit
           = PortfolioOptimizer.Success finalWeights (Spec.penalty objective)
                                        finalMetric iterations improvement)
  /\ ((forall w, exists error, calculateMetrics w = PortfolioOptimizer.Throws error) ->
      exists finalWeights iterations improvement,
        run (Some weights) objective calculateMetrics turnoverLimit
        = PortfolioOptimizer.Success finalWeights (Spec.penalty objective)
                                     (Spec.penalty objective) iterations improvement)
  /\ PortfolioOptimizer.success
       (run None objective calculateMetrics turnoverLimit) = false.
Proof.
  cbv zeta.
  destruct (gradientDescentOptimization_result
              (PortfolioOptimizer.constructor options) weights objective
              calculateMetrics turnoverLimit)
    as (st & Hres & (_ & _ & _ & _ & Hbest) & _).
  split; [|split; [|split; [|split]]].
  - intros w error. apply objective_of_throw.
  - now rewrite Hres.
  - intros error Hthrow. rewrite Hres.
    rewrite (objective_of_throw _ _ _ Hthrow). eauto.
  - intros Hall. rewrite Hres, Hbest.
    destruct (Hall (Spec.parsed weights)) as [e He].
    destruct (Hall (PortfolioOptimizer.bestWeights st)) as [e' He'].
    rewrite (objective_of_throw _ _ _ He), (objective_of_throw _ _ _ He'). eauto.
  - reflexivity.
Qed.

(** C2 (as stated, refuted).  With a callback that throws on every call the
    optimizer returns [success = true] (initial and final metric -999), not a
    failure with an error. *)
Lemma throwing_callback_success_counterexample :
  exists finalWeights iterations improvement,
    PortfolioOptimizer.gradientDescentOptimization
      (PortfolioOptimizer.constructor
         (PortfolioOptimizer.mkOptions None None None None))
      (Some [("A"%string, JS.VNum 50); ("B"%string, JS.VNum 50)]) "sharpe"
      (fun _ => PortfolioOptimizer.Throws "boom") None
    = PortfolioOptimizer.Success finalWeights (- (999)) (- (999))
                                 iterations improvement.
Proof. do 3 eexists. vm_compute. reflexivity. Qed.

(** C10 (amended).  Each run returns a final metric that is not below its
    initial metric.  The final metric of the first run is the objective at
    its best weights, of which the returned weights are the normalized
    version; the second run, started from the returned weights, has the
    objective at those returned weights as its initial metric and returns a
    final metric that is not below it. *)
Theorem rerun_not_below_returned_weights
    (options : PortfolioOptimizer.Options)
    (weights : list (string * JS.jsval)) (objective : string)
    (calculateMetrics : PortfolioOptimizer.Callback) (turnoverLimit : option Q) :
  let run := PortfolioOptimizer.gradientDescentOptimization
               (PortfolioOptimizer.constructor options) in
  let evaluate w :=
    PortfolioOptimizer.calculateObjectiveFunction w objective calculateMetrics in
  exists best1 initial1 final1 iterations1 improvement1
         weights2 initial2 final2 iterations2 improvement2,
    run (Some weights) objective calculateMetrics turnoverLimit
    = PortfolioOptimizer.Success (PortfolioOptimizer.normalizeWeights best1)
                                 initial1 final1 iterations1 improvement1
    /\ run (Some (Spec.as_input (PortfolioOptimizer.normalizeWeights best1)))
           objective calculateMetrics turnoverLimit
       = PortfolioOptimizer.Success weights2 initial2 final2 iterations2 improvement2
    /\ (initial1 <= final1)%Q
    /\ final1 = evaluate best1
    /\ initial2 = evaluate (PortfolioOptimizer.normalizeWeights best1)
    /\ (initial2 <= final2)%Q.
Proof.
  cbv zeta.
  destruct (gradientDescentOptimization_result
              (PortfolioOptimizer.constructor options) weights objective
              calculateMetrics turnoverLimit)
    as (st1 & Hres1 & (_ & _ & _ & Hle1 & Hbest1) & _).
  destruct (gradientDescentOptimization_result
              (PortfolioOptimizer.constructor options)
              (Spec.as_input (PortfolioOptimizer.normalizeWeights
                                (PortfolioOptimizer.bestWeights st1)))
              objective calculateMetrics turnoverLimit)
    as (st2 & Hres2 & (_ & _ & _ & Hle2 & _) & _).
  rewrite parsed_as_input in Hres2, Hle2.
  do 10 eexists.
  split; [exact Hres1|]. split; [exact Hres2|].
  split; [exact Hle1|]. split; [exact Hbest1|]. split; [reflexivity|exact Hle2].
Qed.

(** C10 (as stated, refuted).  The callback scores the weights 50.04 / 49.96
    with a Sharpe ratio of 1 and every other allocation with 1/2.  The first
    run keeps its initial weights (final metric 1) and returns them
    normalized to 50.0 / 50.0; the second run, started from there, can only
    reach allocations scored 1/2. *)
Lemma rerun_regression_counterexample :
  let optimizer := PortfolioOptimizer.constructor
                     (PortfolioOptimizer.mkOptions None None None None) in
  let callback : PortfolioOptimizer.Callback :=
    fun w => PortfolioOptimizer.Returns
               (Some (PortfolioOptimizer.mkMetricsObject
                        (Some (if Qeq_bool (PortfolioOptimizer.get w "A") (5004 # 100)
                               then 1 else 1 # 2)%Q)
                        None None None)) in
  let returned := [("A"%string, JS.parseFixed 500); ("B"%string, JS.parseFixed 500)] in
  exists iterations1 improvement1 weights2 initial2 iterations2 improvement2,
    PortfolioOptimizer.gradientDescentOptimization optimizer
      (Some [("A"%string, JS.VNum (5004 # 100)); ("B"%string, JS.VNum (4996 # 100))])
      "sharpe" callback None
    = PortfolioOptimizer.Success returned 1 1 iterations1 improvement1
    /\ PortfolioOptimizer.gradientDescentOptimization optimizer
         (Some (Spec.as_input returned)) "sharpe" callback None
       = PortfolioOptimizer.Success weights2 initial2 (1 # 2) iterations2 improvement2
    /\ (1 # 2 < 1)%Q.
Proof.
  cbv zeta. do 6 eexists. split; [|split].
  - vm_compute. reflexivity.
  - vm_compute. reflexivity.
  - reflexivity.
Qed.

(* ================================================================== *)
(** * Part III: further properties of the code                         *)
(* ================================================================== *)

(** ** Further properties of the cumulative series *)

Section CumulativeGrowth.

Import PortfolioMetrics.
Local Open Scope Q_scope.




Lemma fold_left_ext_in (A B : Type) (f g : A -> B -> A) (l : list B) :
  (forall a b, In b l -> f a b = g a b) ->
  forall acc, fold_left f l acc = fold_left g l acc.
Proof.
  induction l as [|b l IH]; intros H acc; [reflexivity|].
  cbn. rewrite H by now left. apply IH. intros a b' Hb. apply H. now right.
Qed.

End CumulativeGrowth.



(** X2.  The last return of the input never enters the cumulative series:
    two inputs that differ in their last element only give the same series. *)
Theorem calculateCumulativeReturns_ignores_last (returns : list Q) (x y : Q) :
  PortfolioMetrics.calculateCumulativeReturns (returns ++ [x])
  = PortfolioMetrics.calculateCumulativeReturns (returns ++ [y]).
Proof.
  unfold PortfolioMetrics.calculateCumulativeReturns.
  destruct (returns ++ [x]) as [|a1 l1] eqn:E1; [now destruct returns|].
  destruct (returns ++ [y]) as [|a2 l2] eqn:E2; [now destruct returns|].
  rewrite <- E1, <- E2. rewrite !length_app. cbn [List.length].
  f_equal. apply fold_left_ext_in.
  intros [c res] i Hi. apply in_seq in Hi. unfold PortfolioMetrics.cumulative_step.
  destruct (i =? 0)%nat eqn:Ei; [reflexivity|].
  apply Nat.eqb_neq in Ei.
  rewrite !app_nth1 by lia. reflexivity.
Qed.

(** ** Further properties of the return aggregator *)

Section AggregatorReads.

Import JS PortfolioMetrics.
Local Open Scope Q_scope.

Lemma weight_of_parsed (weights : list (string * jsval)) (asset : string) :
  weight_of (Spec.as_input (Spec.parsed weights)) asset = weight_of weights asset.
Proof.
  unfold weight_of.
  induction weights as [|[k v] l IH]; [reflexivity|].
  cbn. destruct (String.eqb k asset); [reflexivity | exact IH].
Qed.

Lemma keys_as_input_parsed (weights : list (string * jsval)) :
  keys (Spec.as_input (Spec.parsed weights)) = keys weights.
Proof.
  unfold Spec.as_input, Spec.parsed. now rewrite !keys_map_value.
Qed.

Lemma total_as_input_parsed (weights : list (string * jsval)) :
  fold_left (fun sum weight => sum + parseFloat_or0 weight)
            (values (Spec.as_input (Spec.parsed weights))) 0
  = fold_left (fun sum weight => sum + parseFloat_or0 weight) (values weights) 0.
Proof.
  generalize 0.
  induction weights as [|[k v] l IH]; intros acc; [reflexivity|].
  cbn. apply IH.
Qed.

Lemma calculatePortfolioReturns_parsed (weights : list (string * jsval))
    (assetReturns : list (string * list (option Q))) (indices : list nat) :
  calculatePortfolioReturns weights assetReturns indices
  = calculatePortfolioReturns (Spec.as_input (Spec.parsed weights))
                              assetReturns indices.
Proof.
  unfold calculatePortfolioReturns.
  rewrite total_as_input_parsed, keys_as_input_parsed.
  destruct (Qeq_bool _ 0); [reflexivity|].
  erewrite (filter_ext _ (fun asset =>
     Qltb 0 (weight_of (Spec.as_input (Spec.parsed weights)) asset) &&
     match lookup asset assetReturns with Some _ => true | None => false end))
    by (intros a; now rewrite weight_of_parsed).
  destruct (filter _ _) as [|a l]; [reflexivity|].
  apply map_ext. intros index. apply fold_left_ext.
  intros p asset. now rewrite weight_of_parsed.
Qed.

End AggregatorReads.

(** X3.  The aggregator reads a weight map through the numbers its values
    denote only: two maps with the same asset names and the same numbers,
    one holding one-decimal strings (as the normalizer writes them) and the
    other numbers, give the same series. *)
Theorem calculatePortfolioReturns_reads_numbers
    (weights weights' : list (string * JS.jsval))
    (assetReturns : list (string * list (option Q))) (indices : list nat) :
  Spec.parsed weights = Spec.parsed weights' ->
  PortfolioMetrics.calculatePortfolioReturns weights assetReturns indices
  = PortfolioMetrics.calculatePortfolioReturns weights' assetReturns indices.
Proof.
  intros H.
  rewrite (calculatePortfolioReturns_parsed weights),
          (calculatePortfolioReturns_parsed weights').
  now rewrite H.
Qed.

Lemma calculatePortfolioReturns_reads_numbers_witness :
  Spec.parsed [("A"%string, JS.VStr1 600); ("B"%string, JS.VStr1 400)]
  = Spec.parsed [("A"%string, JS.VNum (JS.parseFixed 600));
                 ("B"%string, JS.VNum (JS.parseFixed 400))]
  /\ PortfolioMetrics.calculatePortfolioReturns
       [("A"%string, JS.VStr1 600); ("B"%string, JS.VStr1 400)]
       [("A"%string, [Some 1; Some 2]); ("B"%string, [Some 3; None])]%Q [0; 1]%nat
     = PortfolioMetrics.calculatePortfolioReturns
         [("A"%string, JS.VNum (JS.parseFixed 600));
          ("B"%string, JS.VNum (JS.parseFixed 400))]
         [("A"%string, [Some 1; Some 2]); ("B"%string, [Some 3; None])]%Q [0; 1]%nat.
Proof.
  split; [reflexivity|].
  apply (@calculatePortfolioReturns_reads_numbers
           [("A"%string, JS.VStr1 600); ("B"%string, JS.VStr1 400)]
           [("A"%string, JS.VNum (JS.parseFixed 600));
            ("B"%string, JS.VNum (JS.parseFixed 400))]).
  reflexivity.
Defined.

Section AggregatorZeroFill.

Import JS PortfolioMetrics.
Local Open Scope Q_scope.

Lemma lookup_zero_filled (assetReturns : list (string * list (option Q)))
    (asset : string) :
  lookup asset (Laws.zero_filled assetReturns)
  = option_map (map (fun v => match v with Some r => Some r | None => Some 0 end))
               (lookup asset assetReturns).
Proof.
  induction assetReturns as [|[k s] l IH]; [reflexivity|].
  cbn. destruct (String.eqb k asset); [reflexivity | exact IH].
Qed.

Lemma entry_zero_filled (series : list (option Q)) (index : nat) :
  entry (map (fun v => match v with Some r => Some r | None => Some 0 end) series)
        index
  = match nth_error series index with
    | Some (Some r) => Some r
    | Some None => Some 0
    | None => None
    end.
Proof.
  unfold entry. rewrite nth_error_map.
  destruct (nth_error series index) as [[r|]|]; reflexivity.
Qed.

Lemma Forall2_map_pointwise (A : Type) (f g : A -> Q) (l : list A) :
  (forall x, f x == g x) -> Forall2 Qeq (map f l) (map g l).
Proof.
  intros H. induction l as [|x l IH]; cbn; constructor; auto.
Qed.

Lemma zero_fill_fold (weights : list (string * jsval))
    (assetReturns : list (string * list (option Q))) (index : nat)
    (assets : list string) :
  forall acc acc', acc == acc' ->
    fold_left
      (fun portfolioReturn asset =>
         let weight := weight_of weights asset in
         match lookup asset assetReturns with
         | Some series =>
             match entry series index with
             | Some assetReturn => portfolioReturn + (weight / 100) * assetReturn
             | None => portfolioReturn
             end
         | None => portfolioReturn
         end) assets acc
    == fold_left
         (fun portfolioReturn asset =>
            let weight := weight_of weights asset in
            match lookup asset (Laws.zero_filled assetReturns) with
            | Some series =>
                match entry series index with
                | Some assetReturn => portfolioReturn + (weight / 100) * assetReturn
                | None => portfolioReturn
                end
            | None => portfolioReturn
            end) assets acc'.
Proof.
  induction assets as [|a l IH]; intros acc acc' Hacc; [exact Hacc|].
  cbn [fold_left]. apply IH. cbv zeta.
  rewrite lookup_zero_filled.
  destruct (lookup a assetReturns) as [series|]; cbn [option_map]; [|exact Hacc].
  rewrite entry_zero_filled. unfold entry.
  destruct (nth_error series index) as [[r|]|]; rewrite Hacc; try reflexivity.
  ring.
Qed.

End AggregatorZeroFill.

(** X4.  A missing value counts as a zero return: replacing every [null]
    entry of every series by 0 leaves the result as it is, at every index.
    The weights of the assets that do have a value are not rescaled. *)
Theorem calculatePortfolioReturns_missing_is_zero
    (weights : list (string * JS.jsval))
    (assetReturns : list (string * list (option Q))) (indices : list nat) :
  Forall2 Qeq
    (PortfolioMetrics.calculatePortfolioReturns weights assetReturns indices)
    (PortfolioMetrics.calculatePortfolioReturns weights
       (Laws.zero_filled assetReturns) indices).
Proof.
  unfold PortfolioMetrics.calculatePortfolioReturns.
  destruct (Qeq_bool _ 0).
  { apply Forall2_map_pointwise. reflexivity. }
  erewrite (filter_ext
              (fun asset =>
                 JS.Qltb 0 (PortfolioMetrics.weight_of weights asset) &&
                 match JS.lookup asset (Laws.zero_filled assetReturns) with
                 | Some _ => true | None => false end)
              (fun asset =>
                 JS.Qltb 0 (PortfolioMetrics.weight_of weights asset) &&
                 match JS.lookup asset assetReturns with
                 | Some _ => true | None => false end)).
  2:{ intros a. rewrite lookup_zero_filled.
      now destruct (JS.lookup a assetReturns). }
  destruct (filter _ _) as [|a l].
  { apply Forall2_map_pointwise. reflexivity. }
  apply Forall2_map_pointwise. intros index.
  apply zero_fill_fold. reflexivity.
Qed.

Section AggregatorBounds.

Import JS PortfolioMetrics.
Local Open Scope Q_scope.

Variable assetReturns : list (string * list (option Q)).
Variable index : nat.
Variables lo hi : Q.



End AggregatorBounds.



Section BackupAggregator.

Import JS PortfolioMetrics.
Local Open Scope Q_scope.

Lemma Qltb_compat_r (x y z : Q) : x == y -> Qltb z x = Qltb z y.
Proof.
  intros H. destruct (Qltb z y) eqn:E.
  - apply Qltb_lt in E. apply Qltb_lt. now rewrite H.
  - apply Qltb_ge in E. apply Qltb_ge. now rewrite H.
Qed.

Variable weights : list (string * jsval).
Variable assets : list (string * list (option Q)).
Variable index : nat.

Hypothesis in_range :
  forall asset series,
    lookup asset assets = Some series -> (index < List.length series)%nat.

(** The inner [forEach] of the backup adds up the contributions and the
    weights of the entries it ranges over. *)
Lemma backup_fold (l : list (string * jsval)) :
  (forall a v, In (a, v) l -> lookup a weights = Some v) ->
  forall p t,
    exists p' t',
      fold_left (Backup.backup_step weights assets index) (keys l) (Some p, t)
      = (Some p', t')
      /\ p' == p + Spec.portfolio_return l assets index
      /\ t' == t + Laws.valid_weight l assets index.
Proof.
  unfold Spec.portfolio_return, Spec.contributions, Laws.valid_weight.
  induction l as [|[a v] l IH]; intros Hl p t.
  - exists p, t. cbn. repeat split; ring.
  - cbn [keys map fst fold_left flat_map]. fold (keys l).
    assert (Hw : weight_of weights a = parseFloat_or0 v).
    { unfold weight_of. rewrite (Hl a v) by (left; reflexivity). reflexivity. }
    specialize (IH (fun a' v' H => Hl a' v' (or_intror H))).
    unfold Backup.backup_step at 2. rewrite Hw.
    destruct (Qltb 0 (parseFloat_or0 v)).
    + destruct (lookup a assets) as [series|] eqn:Es.
      * pose proof (in_range _ Es) as Hlen.
        destruct (nth_error series index) as [[r|]|] eqn:En.
        -- replace (entry series index) with (Some r)
             by (unfold entry; now rewrite En).
           cbn [option_map].
           destruct (IH (p + parseFloat_or0 v / 100 * r) (t + parseFloat_or0 v))
             as (p' & t' & -> & Hp & Ht).
           exists p', t'. split; [reflexivity|].
           rewrite !sumQ_app, Hp, Ht. unfold Spec.sumQ. cbn [fold_right]. split; ring.
        -- replace (entry series index) with (@None Q)
             by (unfold entry; now rewrite En).
           destruct (IH p t) as (p' & t' & -> & Hp & Ht).
           exists p', t'. split; [reflexivity|].
           rewrite !sumQ_app, Hp, Ht. unfold Spec.sumQ. cbn [fold_right]. split; ring.
        -- apply nth_error_None in En. lia.
      * destruct (IH p t) as (p' & t' & -> & Hp & Ht).
        exists p', t'. split; [reflexivity|].
        rewrite !sumQ_app, Hp, Ht. unfold Spec.sumQ. cbn [fold_right]. split; ring.
    + destruct (IH p t) as (p' & t' & -> & Hp & Ht).
      exists p', t'. split; [reflexivity|].
      rewrite !sumQ_app, Hp, Ht. unfold Spec.sumQ. cbn [fold_right]. split; ring.
Qed.

Lemma backupCalculatePortfolioReturns_at (indices : list nat) (k : nat) :
  NoDup (keys weights) ->
  nth_error indices k = Some index ->
  exists r,
    nth_error (Backup.backupCalculatePortfolioReturns (Some assets) indices weights) k
    = Some (Some r)
    /\ r == (if Qeq_bool (Spec.total_weight weights) 0 then 0
             else
               let valid := Laws.valid_weight weights assets index in
               if Qltb 0 valid && negb (Qeq_bool valid 100)
               then Spec.portfolio_return weights assets index * (100 / valid)
               else Spec.portfolio_return weights assets index).
Proof.
  intros Hnd Hk. unfold Backup.backupCalculatePortfolioReturns.
  rewrite (Qeq_bool_compat (y := Spec.total_weight weights) 0)
    by (rewrite fold_left_Qplus; unfold Spec.total_weight; ring).
  destruct (Qeq_bool (Spec.total_weight weights) 0).
  - exists 0. rewrite nth_error_map, Hk. split; reflexivity.
  - rewrite nth_error_map, Hk. cbn [option_map].
    destruct (backup_fold weights (fun a v H => lookup_NoDup weights a v Hnd H) 0 0)
      as (p & t & -> & Hp & Ht).
    assert (Hp' : p == Spec.portfolio_return weights assets index) by (rewrite Hp; ring).
    assert (Ht' : t == Laws.valid_weight weights assets index) by (rewrite Ht; ring).
    cbv zeta.
    rewrite <- (Qltb_compat_r 0 Ht'), <- (Qeq_bool_compat 100 Ht').
    destruct (Qltb 0 t && negb (Qeq_bool t 100)); cbn [option_map].
    + eexists. split; [reflexivity|]. now rewrite Hp', Ht'.
    + eexists. split; [reflexivity|]. exact Hp'.
Qed.

End BackupAggregator.

(** X6.  Where the aggregator counts a missing value as a zero return, the
    backup rescales: at an index inside every series, the backup's result is
    the aggregator's result times 100 / V when the weight V that has a value
    there is positive and not 100, and the aggregator's result otherwise. *)
Theorem backupCalculatePortfolioReturns_rescales
    (weights : list (string * JS.jsval))
    (assets : list (string * list (option Q))) (indices : list nat)
    (k index : nat) :
  NoDup (JS.keys weights) ->
  (forall asset series,
      JS.lookup asset assets = Some series -> (index < List.length series)%nat) ->
  nth_error indices k = Some index ->
  exists legacy current,
    nth_error (Backup.backupCalculatePortfolioReturns (Some assets) indices weights) k
    = Some (Some legacy)
    /\ nth_error (PortfolioMetrics.calculatePortfolioReturns weights assets indices) k
       = Some current
    /\ (legacy ==
        let valid := Laws.valid_weight weights assets index in
        if JS.Qltb 0 valid && negb (Qeq_bool valid 100)
        then current * (100 / valid) else current)%Q.
Proof.
  intros Hnd Hin Hk.
  destruct (@backupCalculatePortfolioReturns_at weights assets index Hin indices k Hnd Hk)
    as (legacy & Hl & Hlv).
  destruct (@calculatePortfolioReturns_at weights assets indices k index Hnd Hk)
    as (current & Hc & Hcv).
  exists legacy, current. split; [exact Hl|]. split; [exact Hc|].
  cbv zeta in *.
  destruct (Qeq_bool (Spec.total_weight weights) 0).
  - destruct (_ && _); rewrite Hlv, Hcv; [|reflexivity]. unfold Qdiv. ring.
  - destruct (_ && _); rewrite Hlv, Hcv; reflexivity.
Qed.

Lemma backupCalculatePortfolioReturns_rescales_witness :
  exists legacy current,
    nth_error (Backup.backupCalculatePortfolioReturns
                 (Some [("A"%string, [Some 2]); ("B"%string, [None])]%Q)
                 [0%nat]
                 [("A"%string, JS.VNum 50); ("B"%string, JS.VNum 50)]) 0
    = Some (Some legacy)
    /\ nth_error (PortfolioMetrics.calculatePortfolioReturns
                    [("A"%string, JS.VNum 50); ("B"%string, JS.VNum 50)]
                    [("A"%string, [Some 2]); ("B"%string, [None])]%Q
                    [0%nat]) 0
       = Some current
    /\ (legacy ==
        let valid := Laws.valid_weight
                       [("A"%string, JS.VNum 50); ("B"%string, JS.VNum 50)]
                       [("A"%string, [Some 2]); ("B"%string, [None])]%Q 0 in
        if JS.Qltb 0 valid && negb (Qeq_bool valid 100)
        then current * (100 / valid) else current)%Q.
Proof.
  apply (@backupCalculatePortfolioReturns_rescales
           [("A"%string, JS.VNum 50); ("B"%string, JS.VNum 50)]
           [("A"%string, [Some 2]); ("B"%string, [None])]%Q [0%nat] 0%nat 0%nat).
  - cbn. repeat constructor; cbn; intuition discriminate.
  - intros asset series H. cbn [JS.lookup] in H.
    destruct (String.eqb "A" asset).
    + inversion H; subst; cbn; lia.
    + destruct (String.eqb "B" asset); [|discriminate].
      inversion H; subst; cbn; lia.
  - reflexivity.
Defined.

(** ** Further properties of the two normalizers *)

Section NormalizerTotal.

Import JS PortfolioOptimizer.
Local Open Scope Q_scope.



Variable weights : Weights.
Hypothesis names_nonempty : ~ In EmptyString (keys weights).
Hypothesis positive : 0 < fold_left (fun a b => a + b) (values weights) 0.


End NormalizerTotal.

Section NormalizerFixedPoint.

Import JS PortfolioOptimizer.
Local Open Scope Q_scope.


End NormalizerFixedPoint.







Section NormalizerScale.

Import JS PortfolioOptimizer.
Local Open Scope Q_scope.





End NormalizerScale.



Section BackupUtilities.

Import JS PortfolioOptimizer.
Local Open Scope Q_scope.



Lemma Qltb_opp (x y : Q) : Qltb (- y) (- x) = Qltb x y.
Proof.
  destruct (Qltb x y) eqn:E.
  - apply Qltb_lt in E. apply Qltb_lt. lra.
  - apply Qltb_ge in E. apply Qltb_ge. lra.
Qed.


End BackupUtilities.




(** X13.  The comparison of the class, applied to the negated metrics, is
    the backup's comparison of the metrics as they are reported for the two
    risk objectives, ties included; for the other objectives the two
    comparisons are the same. *)
Theorem isMetricImprovement_matches_backup (objective : string)
    (newMetric currentBest : Q) :
  Backup.backupIsMetricImprovement objective newMetric currentBest
  = if String.eqb objective "risk" || String.eqb objective "cvar"
    then PortfolioOptimizer.isMetricImprovement (- newMetric) (- currentBest) objective
    else PortfolioOptimizer.isMetricImprovement newMetric currentBest objective.
Proof.
  unfold Backup.backupIsMetricImprovement, PortfolioOptimizer.isMetricImprovement.
  destruct (String.eqb objective "risk" || String.eqb objective "cvar");
    [|reflexivity].
  symmetry. apply Qltb_opp.
Qed.

(** ** Further properties of the search *)

Section ObjectUpdates.

Import JS PortfolioOptimizer.
Local Open Scope Q_scope.

Lemma get_update_cases (key : string) (f : Q -> Q) (l : Weights) (asset : string) :
  get (update key f l) asset = get l asset
  \/ get (update key f l) asset = f (get l asset).
Proof.
  unfold get. induction l as [|[k v] l IH]; cbn [update lookup]; [now left|].
  destruct (String.eqb k key) eqn:Ek.
  - cbn [lookup]. destruct (String.eqb k asset); [now right | now left].
  - cbn [lookup]. destruct (String.eqb k asset); [now left | exact IH].
Qed.

Lemma sum_update (key : string) (f : Q -> Q) (l : Weights) :
  In key (keys l) ->
  Spec.sumQ (values (update key f l))
  == Spec.sumQ (values l) - get l key + f (get l key).
Proof.
  unfold get, Spec.sumQ.
  induction l as [|[k v] l IH]; cbn [keys map fst In]; [tauto|].
  intros H. cbn [update lookup].
  destruct (String.eqb k key) eqn:Ek.
  - cbn [values map snd fold_right]. ring.
  - apply String.eqb_neq in Ek. destruct H as [H | H]; [contradiction|].
    cbn [values map snd fold_right]. fold (values (update key f l)).
    fold (values l). rewrite (IH H). ring.
Qed.

(** Moving a step from one asset of the map to another keeps the sum. *)
Lemma sum_move (step : Q) (l : Weights) (asset decreaseAsset : string) :
  In asset (keys l) -> In decreaseAsset (keys l) ->
  Spec.sumQ (values (update decreaseAsset (fun w => w - step)
                            (update asset (fun w => w + step) l)))
  == Spec.sumQ (values l).
Proof.
  intros Ha Hd.
  rewrite sum_update by now rewrite keys_update.
  rewrite sum_update by exact Ha. ring.
Qed.

(** A move changes no weight by more than a step. *)
Lemma drift_move (step : Q) (l : Weights) (asset decreaseAsset a : string)
    (y bound : Q) :
  Qabs (get l a - y) <= bound ->
  Qabs (get (update decreaseAsset (fun w => w - step)
                    (update asset (fun w => w + step) l)) a - y)
  <= bound + Qabs step.
Proof.
  intros H. apply Qabs_Qle_condition in H. destruct H as [H1 H2].
  pose proof (Qle_Qabs step) as Hs1.
  pose proof (Qle_Qabs (- step)) as Hs2. rewrite Qabs_opp in Hs2.
  apply Qabs_Qle_condition.
  destruct (get_update_cases decreaseAsset (fun w => w - step)
              (update asset (fun w => w + step) l) a) as [-> | ->];
    destruct (get_update_cases asset (fun w => w + step) l a) as [-> | ->];
    split; lra.
Qed.

Lemma insert_desc_In (gradients : list (string * Q)) (a x : string) (l : list string) :
  In a (insert_desc gradients x l) -> a = x \/ In a l.
Proof.
  induction l as [|b l IH]; cbn [insert_desc].
  - intros [<- | []]. now left.
  - destruct (Qltb 0 _).
    + intros [<- | H]; [right; now left|].
      destruct (IH H) as [-> | H']; [now left | right; now right].
    + intros [<- | H]; [now left | now right].
Qed.

Lemma sort_desc_In (gradients : list (string * Q)) (a : string) (l : list string) :
  In a (sort_desc gradients l) -> In a l.
Proof.
  unfold sort_desc. induction l as [|x l IH]; cbn [fold_right]; [tauto|].
  intros H. apply insert_desc_In in H. destruct H as [-> | H]; [now left|].
  right. now apply IH.
Qed.

Lemma calculateGradients_keys (weights : Weights) (stepSize : Q)
    (objective : string) (calculateMetrics : Callback) :
  keys (calculateGradients weights stepSize objective calculateMetrics)
  = keys weights.
Proof.
  unfold calculateGradients. cbv zeta. unfold keys at 1. rewrite map_map.
  rewrite <- (map_id (keys weights)) at 2. apply map_ext. intros asset.
  destruct (find _ _); [|reflexivity].
  destruct (_ && _); [|reflexivity].
  destruct (isValidWeightAllocation _); reflexivity.
Qed.

End ObjectUpdates.

Section SearchMoves.

Import JS PortfolioOptimizer.
Local Open Scope Q_scope.

Variable this : Optimizer.
Variable objective : string.
Variable calculateMetrics : Callback.
Variable turnoverLimitPercent : Q.

(** An applied move takes one step from an asset to decrease and gives it
    to the asset to increase. *)
Lemma scan_decrease_shape (st : State) (asset : string)
    (assetsToDecrease : list string) (st' : State) :
  scan_decrease this objective calculateMetrics turnoverLimitPercent
                st asset assetsToDecrease = Some st' ->
  exists decreaseAsset,
    In decreaseAsset assetsToDecrease
    /\ currentWeights st'
       = update decreaseAsset (fun w => w - stepSize this)
                (update asset (fun w => w + stepSize this) (currentWeights st)).
Proof.
  induction assetsToDecrease as [|decreaseAsset rest IH]; cbn [scan_decrease];
    [discriminate|].
  assert (Hrest : scan_decrease this objective calculateMetrics turnoverLimitPercent
                                st asset rest = Some st' ->
                  exists d, In d (decreaseAsset :: rest)
                    /\ currentWeights st'
                       = update d (fun w => w - stepSize this)
                           (update asset (fun w => w + stepSize this)
                                   (currentWeights st))).
  { intros H. destruct (IH H) as (d & Hd & E). exists d. split; [now right | exact E]. }
  destruct (_ && _); [|exact Hrest].
  destruct (isValidWeightAllocation _); [|exact Hrest].
  destruct (isMetricImprovement _ _ _); [|exact Hrest].
  intros [= <-]. exists decreaseAsset. split; [now left | reflexivity].
Qed.

Lemma scan_increase_shape (st : State) (assetsToIncrease assetsToDecrease : list string)
    (st' : State) :
  scan_increase this objective calculateMetrics turnoverLimitPercent
                st assetsToIncrease assetsToDecrease = Some st' ->
  exists asset decreaseAsset,
    In asset assetsToIncrease /\ In decreaseAsset assetsToDecrease
    /\ currentWeights st'
       = update decreaseAsset (fun w => w - stepSize this)
                (update asset (fun w => w + stepSize this) (currentWeights st)).
Proof.
  induction assetsToIncrease as [|asset rest IH]; cbn [scan_increase];
    [discriminate|].
  assert (Hrest : scan_increase this objective calculateMetrics turnoverLimitPercent
                                st rest assetsToDecrease = Some st' ->
                  exists a d, In a (asset :: rest) /\ In d assetsToDecrease
                    /\ currentWeights st'
                       = update d (fun w => w - stepSize this)
                           (update a (fun w => w + stepSize this)
                                   (currentWeights st))).
  { intros H. destruct (IH H) as (a & d & Ha & Hd & E).
    exists a, d. split; [now right | now split]. }
  destruct (_ && _); [|exact Hrest].
  destruct (scan_decrease _ _ _ _ _ _ _) eqn:Ed; [|exact Hrest].
  intros [= <-]. destruct (scan_decrease_shape _ _ _ Ed) as (d & Hd & E).
  exists asset, d. split; [now left | now split].
Qed.

(** A pass leaves the loop with the state as it is, or goes on with the
    weights and the best metric as they were, or applies one move between
    two assets of the map, which gives a valid allocation and a best metric
    above the one before. *)
Lemma iterate_shape (st : State) :
  (iterate this objective calculateMetrics turnoverLimitPercent st = Break st)
  \/ (exists st',
         iterate this objective calculateMetrics turnoverLimitPercent st = Next st'
         /\ iteration st' = (iteration st + 1)%Z
         /\ ((currentWeights st' = currentWeights st
              /\ bestWeights st' = bestWeights st
              /\ bestMetric st' = bestMetric st)
             \/ (exists asset decreaseAsset,
                    In asset (keys (currentWeights st))
                    /\ In decreaseAsset (keys (currentWeights st))
                    /\ currentWeights st'
                       = update decreaseAsset (fun w => w - stepSize this)
                           (update asset (fun w => w + stepSize this)
                                   (currentWeights st))
                    /\ bestWeights st' = currentWeights st'
                    /\ isValidWeightAllocation (bestWeights st') = true
                    /\ bestMetric st < bestMetric st'))).
Proof.
  unfold iterate. cbv zeta.
  set (gradients := calculateGradients (currentWeights st) (stepSize this)
                                       objective calculateMetrics).
  assert (Hk : keys gradients = keys (currentWeights st))
    by apply calculateGradients_keys.
  destruct (keys gradients) as [|k0 ks] eqn:Ek; [now left|].
  rewrite <- Ek.
  set (inc := filter (fun asset => Qltb 0 (get gradients asset))
                     (sort_desc gradients (keys gradients))).
  set (dec := filter (fun asset => Qltb (get gradients asset) 0)
                     (sort_desc gradients (keys gradients))).
  assert (Hinc : forall a, In a inc -> In a (keys (currentWeights st))).
  { intros a Ha. unfold inc in Ha. apply filter_In in Ha. destruct Ha as [Ha _].
    apply sort_desc_In in Ha. rewrite Ek in Ha. now rewrite Hk in Ha. }
  assert (Hdec : forall a, In a dec -> In a (keys (currentWeights st))).
  { intros a Ha. unfold dec in Ha. apply filter_In in Ha. destruct Ha as [Ha _].
    apply sort_desc_In in Ha. rewrite Ek in Ha. now rewrite Hk in Ha. }
  clearbody inc dec.
  destruct inc as [|i assetsToIncrease].
  { right. eexists. split; [reflexivity|]. cbn. auto. }
  destruct dec as [|d assetsToDecrease].
  { right. eexists. split; [reflexivity|]. cbn. auto. }
  destruct (negb _ || negb _); [now left|].
  destruct (scan_increase _ _ _ _ _ _ _) as [st'|] eqn:Es.
  - right. eexists. split; [reflexivity|]. cbn [iteration currentWeights bestWeights bestMetric].
    split; [reflexivity|]. right.
    destruct (scan_increase_shape _ _ _ Es) as (a & d' & Ha & Hd & E).
    apply scan_increase_moved in Es. destruct Es as (Hv & Hcb & _ & Hlt & _).
    exists a, d'. repeat split; auto.
  - right. eexists. split; [reflexivity|]. cbn. auto.
Qed.

Section RunInvariant.

Variable w0 : Weights.
Variable m0 : Q.

Lemma pass_keeps_run_invariant (st st' : State) :
  Laws.run_invariant (stepSize this) w0 m0 st ->
  iterate this objective calculateMetrics turnoverLimitPercent st = Next st' ->
  Laws.run_invariant (stepSize this) w0 m0 st'.
Proof.
  intros (Hcb & Hk & Hsum & Hit & Hdrift & Hbest) Hn.
  destruct (iterate_shape st) as [Hb | (st1 & Hn1 & Hi & Hcase)];
    [rewrite Hb in Hn; discriminate|].
  rewrite Hn1 in Hn. injection Hn as <-.
  assert (Hgrow : forall x, x <= inject_Z (iteration st) * Qabs (stepSize this) ->
                    x + 0 <= inject_Z (iteration st1) * Qabs (stepSize this)).
  { intros x Hx. rewrite Hi, inject_Z_plus. change (inject_Z 1) with 1.
    pose proof (Qabs_nonneg (stepSize this)). lra. }
  unfold Laws.run_invariant.
  destruct Hcase as [(Hc & Hb & Hm) | (a & d & Ha & Hd & Hc & Hb & Hv & Hlt)].
  - rewrite Hb, Hm, Hc. repeat split; auto; try lia.
    intros asset. specialize (Hgrow _ (Hdrift asset)). lra.
  - rewrite Hb, Hc, Hcb in *. repeat split.
    + now rewrite !keys_update.
    + rewrite sum_move; assumption.
    + lia.
    + intros asset. rewrite Hi, inject_Z_plus. change (inject_Z 1) with 1.
      pose proof (@drift_move (stepSize this) (bestWeights st) a d asset
                    (get w0 asset) _ (Hdrift asset)).
      lra.
    + right. split; [|exact Hv].
      destruct Hbest as [[_ E] | [Hlt0 _]]; [rewrite <- E; exact Hlt | lra].
Qed.

Lemma while_loop_keeps_run_invariant (maxIterations : Z) (st st' : State) :
  while_loop this objective calculateMetrics turnoverLimitPercent maxIterations st st' ->
  Laws.run_invariant (stepSize this) w0 m0 st ->
  Laws.run_invariant (stepSize this) w0 m0 st'.
Proof.
  induction 1 as [st _ | st st' _ Hb | st st1 st2 _ Hn _ IH]; intros Hinv.
  - exact Hinv.
  - destruct (iterate_shape st) as [Hb' | (st1 & Hn & _)].
    + rewrite Hb' in Hb. now injection Hb as <-.
    + rewrite Hn in Hb. discriminate.
  - apply IH. eapply pass_keeps_run_invariant; eassumption.
Qed.

End RunInvariant.

(** The loop makes no more passes than [maxIterations]. *)
Lemma while_loop_iterations (maxIterations : Z) (st st' : State) :
  while_loop this objective calculateMetrics turnoverLimitPercent maxIterations st st' ->
  (iteration st <= iteration st' <= Z.max (iteration st) maxIterations)%Z.
Proof.
  induction 1 as [st _ | st st' _ Hb | st st1 st2 Hc Hn _ IH].
  - lia.
  - destruct (iterate_shape st) as [Hb' | (st1 & Hn & _)].
    + rewrite Hb' in Hb. injection Hb as <-. lia.
    + rewrite Hn in Hb. discriminate.
  - destruct (iterate_shape st) as [Hb' | (st1' & Hn' & Hi & _)].
    + rewrite Hb' in Hn. discriminate.
    + rewrite Hn' in Hn. injection Hn as <-.
      unfold loop_condition in Hc. apply andb_true_iff in Hc. destruct Hc as [Hc _].
      apply Z.ltb_lt in Hc. lia.
Qed.

End SearchMoves.

Section OptimizerRun.

Import JS PortfolioOptimizer.
Local Open Scope Q_scope.

Variable this : Optimizer.
Variable weights : list (string * jsval).
Variable objective : string.
Variable calculateMetrics : Callback.
Variable turnoverLimit : option Q.

(** What a run returns, with what the loop keeps. *)
Lemma gradientDescentOptimization_run :
  let m0 := calculateObjectiveFunction (Spec.parsed weights) objective calculateMetrics in
  let limit := match turnoverLimit with Some t => t | None => 1 end in
  exists st,
    gradientDescentOptimization this (Some weights) objective calculateMetrics
                                turnoverLimit
    = Success (normalizeWeights (bestWeights st)) m0 (bestMetric st)
              (iteration st) (bestMetric st - m0)
    /\ Laws.run_invariant (stepSize this) (Spec.parsed weights) m0 st
    /\ (0 <= iteration st <= Z.max 0 (Qfloor (limit / stepSize this)))%Z.
Proof.
  cbv zeta.
  destruct (gradientDescentOptimization_result this weights objective
              calculateMetrics turnoverLimit) as (st & Hres & _ & Hloop).
  exists st. split; [exact Hres|]. split.
  - eapply while_loop_keeps_run_invariant; [exact Hloop|].
    unfold Laws.run_invariant. cbn [currentWeights bestWeights bestMetric iteration].
    repeat split; auto; try lia; try reflexivity.
    intros asset.
    setoid_replace (get (Spec.parsed weights) asset - get (Spec.parsed weights) asset)
      with 0 by ring.
    change (Qabs 0) with 0. change (inject_Z 0) with 0. lra.
  - apply while_loop_iterations in Hloop. cbn [iteration] in Hloop. exact Hloop.
Qed.

End OptimizerRun.

(** X14.  On a weight map the optimizer reports success with weights under
    the asset names of the input, in their order, and the number of passes
    it reports is between 0 and floor(limit / stepSize), the limit being 1
    when none is given. *)
Theorem optimizer_names_and_iterations (this : PortfolioOptimizer.Optimizer)
    (weights : list (string * JS.jsval)) (objective : string)
    (calculateMetrics : PortfolioOptimizer.Callback) (turnoverLimit : option Q) :
  exists finalWeights initialMetric finalMetric iterations improvement,
    PortfolioOptimizer.gradientDescentOptimization
      this (Some weights) objective calculateMetrics turnoverLimit
    = PortfolioOptimizer.Success finalWeights initialMetric finalMetric
                                 iterations improvement
    /\ JS.keys finalWeights = JS.keys weights
    /\ (0 <= iterations
        <= Z.max 0 (Qfloor (match turnoverLimit with Some t => t | None => 1 end
                            / PortfolioOptimizer.stepSize this)))%Z.
Proof.
  destruct (gradientDescentOptimization_run this weights objective
              calculateMetrics turnoverLimit) as (st & Hres & Hinv & Hit).
  destruct Hinv as (_ & Hk & _).
  do 5 eexists. split; [exact Hres|]. split; [|exact Hit].
  rewrite normalizeWeights_keys, Hk. unfold Spec.parsed. apply keys_map_value.
Qed.




(** X17.  The reported final metric is the initial one exactly when no move
    was applied: either the two metrics are equal and the returned weights
    are the normalized input, or the final metric is strictly above the
    initial one. *)
Theorem optimizer_improves_or_returns_input (this : PortfolioOptimizer.Optimizer)
    (weights : list (string * JS.jsval)) (objective : string)
    (calculateMetrics : PortfolioOptimizer.Callback) (turnoverLimit : option Q) :
  exists finalWeights initialMetric finalMetric iterations improvement,
    PortfolioOptimizer.gradientDescentOptimization
      this (Some weights) objective calculateMetrics turnoverLimit
    = PortfolioOptimizer.Success finalWeights initialMetric finalMetric
                                 iterations improvement
    /\ ((finalMetric = initialMetric
         /\ finalWeights = PortfolioOptimizer.normalizeWeights (Spec.parsed weights))
        \/ (initialMetric < finalMetric)%Q).
Proof.
  destruct (gradientDescentOptimization_run this weights objective
              calculateMetrics turnoverLimit) as (st & Hres & Hinv & _).
  destruct Hinv as (_ & _ & _ & _ & _ & Hbest).
  do 5 eexists. split; [exact Hres|].
  destruct Hbest as [[-> ->] | [Hlt _]]; [left; now split | now right].
Qed.





(** X20.  Under the objective 'risk' a failed evaluation scores above every
    evaluation that reports a volatility that is not negative: the weights
    on which the callback throws, or returns nothing, compare as better. *)
Theorem risk_failure_outranks_success
    (failing working : PortfolioOptimizer.Weights)
    (calculateMetrics : PortfolioOptimizer.Callback)
    (metrics : PortfolioOptimizer.MetricsObject) :
  (calculateMetrics failing = PortfolioOptimizer.Returns None
   \/ exists error, calculateMetrics failing = PortfolioOptimizer.Throws error) ->
  calculateMetrics working = PortfolioOptimizer.Returns (Some metrics) ->
  (forall v, PortfolioOptimizer.volatility metrics = Some v -> 0 <= v)%Q ->
  PortfolioOptimizer.isMetricImprovement
    (PortfolioOptimizer.calculateObjectiveFunction failing "risk" calculateMetrics)
    (PortfolioOptimizer.calculateObjectiveFunction working "risk" calculateMetrics)
    "risk"
  = true.
Proof.
  intros Hf Hw Hv.
  assert (E : PortfolioOptimizer.calculateObjectiveFunction failing "risk"
                calculateMetrics = 999%Q).
  { destruct Hf as [Hf | [e Hf]].
    - now rewrite (objective_of_falsy _ _ _ Hf).
    - now rewrite (objective_of_throw _ _ _ Hf). }
  rewrite E. unfold PortfolioOptimizer.calculateObjectiveFunction. rewrite Hw.
  change (String.eqb "risk" "sharpe") with false.
  change (String.eqb "risk" "risk") with true. cbv iota.
  unfold PortfolioOptimizer.isMetricImprovement.
  change (String.eqb "risk" "risk" || String.eqb "risk" "cvar") with true.
  cbv iota. apply Qltb_lt.
  unfold PortfolioOptimizer.or_else.
  destruct (PortfolioOptimizer.volatility metrics) as [v|]; [|reflexivity].
  specialize (Hv v eq_refl).
  destruct (Qeq_bool v 0); [reflexivity | lra].
Qed.

Lemma risk_failure_outranks_success_witness :
  PortfolioOptimizer.isMetricImprovement
    (PortfolioOptimizer.calculateObjectiveFunction
       [("A"%string, 101%Q)] "risk"
       (fun w => if Qle_bool (PortfolioOptimizer.get w "A"%string) 100
                 then PortfolioOptimizer.Returns
                        (Some (PortfolioOptimizer.mkMetricsObject
                                 None (Some 12%Q) None None))
                 else PortfolioOptimizer.Throws "out of range"%string))
    (PortfolioOptimizer.calculateObjectiveFunction
       [("A"%string, 100%Q)] "risk"
       (fun w => if Qle_bool (PortfolioOptimizer.get w "A"%string) 100
                 then PortfolioOptimizer.Returns
                        (Some (PortfolioOptimizer.mkMetricsObject
                                 None (Some 12%Q) None None))
                 else PortfolioOptimizer.Throws "out of range"%string))
    "risk"
  = true.
Proof.
  apply (@risk_failure_outranks_success
           [("A"%string, 101%Q)] [("A"%string, 100%Q)]
           (fun w => if Qle_bool (PortfolioOptimizer.get w "A"%string) 100
                     then PortfolioOptimizer.Returns
                            (Some (PortfolioOptimizer.mkMetricsObject
                                     None (Some 12%Q) None None))
                     else PortfolioOptimizer.Throws "out of range"%string)
           (PortfolioOptimizer.mkMetricsObject None (Some 12%Q) None None)).
  - right. exists "out of range"%string. reflexivity.
  - reflexivity.
  - intros v [= <-]. vm_compute. discriminate.
Defined.

(** X21.  No field of a constructed optimizer is 0: an option of 0 is
    replaced by the default, as a missing one is. *)
Theorem constructor_fields_nonzero (options : PortfolioOptimizer.Options) :
  ~ (PortfolioOptimizer.stepSize (PortfolioOptimizer.constructor options) == 0)%Q
  /\ ~ (PortfolioOptimizer.maxIterations (PortfolioOptimizer.constructor options) == 0)%Q
  /\ ~ (PortfolioOptimizer.tolerance (PortfolioOptimizer.constructor options) == 0)%Q
  /\ ~ (PortfolioOptimizer.maxStagnation (PortfolioOptimizer.constructor options) == 0)%Q.
Proof.
  assert (H : forall field fallback,
             ~ (fallback == 0)%Q ->
             ~ (PortfolioOptimizer.or_else field fallback == 0)%Q).
  { intros [x|] fallback Hf; cbn; [|exact Hf].
    destruct (Qeq_bool x 0) eqn:E; [exact Hf|].
    now apply Qeq_bool_neq. }
  unfold PortfolioOptimizer.constructor. cbn.
  repeat split; apply H; discriminate.
Qed.

(** ** Further properties of the frequency detector *)

(** X22.  Whatever the returns, the date labels and the way they parse, the
    detector answers with one of five frequencies: daily (252 periods),
    weekly (52), monthly (12), quarterly (4), each with the square root of
    its periods as annualization factor, or annual (1 period, factor 1). *)
Theorem detectFrequency_one_of_five (Date_parse : string -> float)
    (returns : list float) (dates : option (list string)) :
  In (MetricsEngine.detectFrequency Date_parse returns dates)
     [MetricsEngine.mkFrequency 252 "daily" (MetricsEngine.Math_sqrt 252);
      MetricsEngine.mkFrequency 52 "weekly" (MetricsEngine.Math_sqrt 52);
      MetricsEngine.mkFrequency 12 "monthly" (MetricsEngine.Math_sqrt 12);
      MetricsEngine.mkFrequency 4 "quarterly" (MetricsEngine.Math_sqrt 4);
      MetricsEngine.mkFrequency 1 "annual" 1].
Proof.
  unfold MetricsEngine.detectFrequency.
  destruct dates as [[|d0 [|d1 rest]]|];
    repeat match goal with
           | |- context [if ?b then _ else _] => destruct b
           end;
    cbn [In]; tauto.
Qed.

(** ** The random search *)

Section RandomSearchFacts.

Import MetricsEngine RandomSearch.
Local Open Scope float_scope.

Variable Date_parse : string -> float.
Variable Math_pow : float -> float -> float.
Variable toFixed1 : float -> float.
Variable Math_random : nat -> float.

(** No number is above [Infinity]. *)
Lemma infinity_not_below (x : float) : (infinity <? x) = false.
Proof.
  rewrite FloatAxioms.ltb_spec.
  change (Prim2SF infinity) with (S754_infinity false).
  destruct (Prim2SF x) as [s | s | | s m e]; try destruct s; reflexivity.
Qed.

(** With the best score at [Infinity] a pass changes neither the best
    weights nor the best score. *)
Lemma pass_risk (assets : list string)
    (returns : list (string * list (option float)))
    (bestWeights : list (string * float)) (calls : nat) :
  pass Date_parse Math_pow Math_random assets returns "risk"
       (bestWeights, infinity, calls)
  = (bestWeights, infinity, (calls + List.length assets)%nat).
Proof.
  unfold pass. cbv zeta.
  destruct (calculatePortfolioReturns _ _ _); [reflexivity|].
  change (String.eqb "risk" "risk") with true. cbv iota.
  now rewrite infinity_not_below.
Qed.

Lemma passes_risk (assets : list string)
    (returns : list (string * list (option float))) (l : list nat) :
  forall (bestWeights : list (string * float)) (calls : nat),
    exists calls',
      fold_left (fun st _ =>
                   pass Date_parse Math_pow Math_random assets returns "risk" st)
                l (bestWeights, infinity, calls)
      = (bestWeights, infinity, calls').
Proof.
  induction l as [|i l IH]; intros bestWeights calls; cbn [fold_left].
  - now exists calls.
  - rewrite pass_risk. apply IH.
Qed.

End RandomSearchFacts.

(** X23.  With the objective 'risk' the random search never accepts a
    candidate: its best score starts at [Infinity] and a candidate is taken
    only when its score is above the best one.  Whatever the return data,
    the number of passes and the random numbers drawn, [optimizePortfolio]
    returns the normalized equal weights it starts from. *)
Theorem optimizePortfolio_risk_returns_equal_weights
    (Date_parse : string -> float) (Math_pow : float -> float -> float)
    (toFixed1 : float -> float) (Math_random : nat -> float)
    (assets : list string) (returns : list (string * list (option float)))
    (iterations : option nat) :
  RandomSearch.optimizePortfolio
    Date_parse Math_pow toFixed1 Math_random
    (RandomSearch.mkConfig assets returns (Some "risk"%string) iterations)
  = RandomSearch.normalizeWeights toFixed1
      (map (fun '(asset, w) => (asset, RandomSearch.Number w))
           (RandomSearch.initial_weights assets)).
Proof.
  unfold RandomSearch.optimizePortfolio. cbv zeta.
  cbn [RandomSearch.objective RandomSearch.assets RandomSearch.returns
       RandomSearch.iterations].
  change (String.eqb "risk" "risk") with true. cbv iota.
  destruct (passes_risk Date_parse Math_pow Math_random assets returns
              (seq 0 (match iterations with Some n => n | None => 1000%nat end))
              (RandomSearch.initial_weights assets) 0%nat) as (calls' & ->).
  reflexivity.
Qed.
